(** * email_builder: the message-generation engine of [email_builder/cli.py]

    A shallow embedding of the generation engine: the attachment-count draw,
    the [Selector], the date samplers, the relay-chain generator, the message
    assembler and the generation loop, followed by the properties of each.

    Conventions.
    - A Python [str] is the list of its code points ([pystr]); literals are
      written [lit "..."].
    - A Python [int] is a [Z]; a Python [float] is a binary64 [float].
    - The module-level generator of [random] is a state [G] threaded through
      every draw; exceptions are values of [exn].  A computation that only
      draws has type [Rand A]; one that also reads the clock or writes files
      has type [Run A].
    - [logging] calls have no effect on the results and are left out. *)

From Stdlib Require Import ZArith List String Ascii Floats Lia Bool.
From Stdlib Require DecimalString HexadecimalString DecimalPos.
From stdpp Require Import base option list gmap.
Import ListNotations.
Local Open Scope Z_scope.
#[local] Set Warnings "-inexact-float".

(** ** Strings *)

Definition pystr : Type := list N.

Definition lit (s : string) : pystr :=
  List.map N_of_ascii (list_ascii_of_string s).

Definition str_eqb (a b : pystr) : bool := bool_decide (a = b).

(** ** Exceptions and outcomes *)

Inductive exn : Type :=
| ValueError (msg : string)
| IndexError (msg : string)
| SystemExit (code : Z).

Inductive outcome (A : Type) : Type :=
| Ok (a : A)
| Raise (e : exn).
Arguments Ok {A} a.
Arguments Raise {A} e.

Definition is_ok {A} (o : outcome A) : bool :=
  match o with Ok _ => true | Raise _ => false end.

(** ** Dates and times

    A [datetime] carries the proleptic Gregorian ordinal of its date (what
    [date.toordinal()] returns), its time of day, and its [tzinfo] as the
    UTC offset in seconds ([None] for a naive value).  The bounds of the
    type (years 1 to 9999) are not modelled: arithmetic does not overflow. *)

Record datetime : Type := {
  dt_ordinal : Z;
  dt_hour : Z;
  dt_minute : Z;
  dt_second : Z;
  dt_microsecond : Z;
  dt_tzinfo : option Z
}.

(** [timezone.utc] *)
Definition utc : option Z := Some 0.

(** Seconds since the start of ordinal day 0, on the value's own clock. *)
Definition local_seconds (d : datetime) : Z :=
  dt_ordinal d * 86400 + dt_hour d * 3600 + dt_minute d * 60 + dt_second d.

Definition local_micros (d : datetime) : Z :=
  local_seconds d * 1000000 + dt_microsecond d.

(** The instant of a value, in microseconds of UTC: what the comparison of
    two aware values compares. *)
Definition utc_micros (d : datetime) : Z :=
  (local_seconds d - default 0 (dt_tzinfo d)) * 1000000 + dt_microsecond d.

(** [a < b] *)
Definition dt_ltb (a b : datetime) : bool := utc_micros a <? utc_micros b.

(** [a <= b] *)
Definition dt_leb (a b : datetime) : bool := utc_micros a <=? utc_micros b.

(** The value whose local clock reads [us] microseconds after the start of
    ordinal day 0. *)
Definition of_local_micros (us : Z) (tz : option Z) : datetime :=
  let secs := us / 1000000 in
  let sod := secs mod 86400 in
  {| dt_ordinal := secs / 86400;
     dt_hour := sod / 3600;
     dt_minute := (sod mod 3600) / 60;
     dt_second := sod mod 60;
     dt_microsecond := us mod 1000000;
     dt_tzinfo := tz |}.

(** [d + timedelta(microseconds=us)] *)
Definition dt_add_micros (d : datetime) (us : Z) : datetime :=
  of_local_micros (local_micros d + us) (dt_tzinfo d).

(** [d + timedelta(seconds=s)] and [d - timedelta(minutes=m)] *)
Definition dt_add_seconds (d : datetime) (s : Z) : datetime :=
  dt_add_micros d (s * 1000000).

Definition dt_sub_minutes (d : datetime) (m : Z) : datetime :=
  dt_add_micros d (- (m * 60 * 1000000)).

(** [date(1970, 1, 1).toordinal()] *)
Definition EPOCH_ORDINAL : Z := 719163.

(** [datetime.fromtimestamp(t, timezone.utc)] for [t] in microseconds. *)
Definition dt_of_timestamp_utc (us : Z) : datetime :=
  of_local_micros (EPOCH_ORDINAL * 86400 * 1000000 + us) utc.

Definition minute_of_day (d : datetime) : Z := dt_hour d * 60 + dt_minute d.

(** [datetime(year, month, day, hour, minute, second, tzinfo=tz)] for the
    date of ordinal [ord]: the constructor checks the time fields. *)
Definition datetime_new (ord hour minute second : Z) (tz : option Z)
  : outcome datetime :=
  if negb ((0 <=? hour) && (hour <=? 23)) then
    Raise (ValueError "hour must be in 0..23")
  else if negb ((0 <=? minute) && (minute <=? 59)) then
    Raise (ValueError "minute must be in 0..59")
  else if negb ((0 <=? second) && (second <=? 59)) then
    Raise (ValueError "second must be in 0..59")
  else
    Ok {| dt_ordinal := ord; dt_hour := hour; dt_minute := minute;
          dt_second := second; dt_microsecond := 0; dt_tzinfo := tz |}.

(** [list(range(a, b))] *)
Definition py_range (a b : Z) : list Z :=
  List.map (fun i => a + Z.of_nat i) (seq 0 (Z.to_nat (b - a))).

(** [float(z)] for an [int] of magnitude below [2^63]. *)
Definition float_of_Z (z : Z) : float :=
  if z <? 0 then PrimFloat.opp (PrimFloat.of_uint63 (Uint63.of_Z (- z)))
  else PrimFloat.of_uint63 (Uint63.of_Z z).

(** ** Text helpers *)

Definition CR : N := 13%N.
Definition LF : N := 10%N.
Definition SPACE : N := 32%N.
Definition LT : N := 60%N.
Definition GT : N := 62%N.
Definition AT : N := 64%N.
Definition SLASH : N := 47%N.

(** The code points that [str.strip()] and the pattern [\s] treat as white
    space. *)
Definition is_space (c : N) : bool :=
  ((9 <=? c) && (c <=? 13) || (28 <=? c) && (c <=? 32) || (c =? 133) || (c =? 160)
   || (c =? 5760) || (8192 <=? c) && (c <=? 8202) || (c =? 8232) || (c =? 8233)
   || (c =? 8239) || (c =? 8287) || (c =? 12288))%N.

Definition is_newline (c : N) : bool := ((c =? CR) || (c =? LF))%N.

Fixpoint lstrip (s : pystr) : pystr :=
  match s with
  | [] => []
  | c :: r => if is_space c then lstrip r else s
  end.

Definition rstrip (s : pystr) : pystr := rev (lstrip (rev s)).

(** [s.strip()] *)
Definition strip (s : pystr) : pystr := rstrip (lstrip s).

(** [re.sub(p+, " ", s)] for a class [p] of characters: every maximal run of
    characters of the class becomes one space.  [in_run] tells that the
    previous character belonged to the class. *)
Fixpoint sub_runs (p : N -> bool) (s : pystr) (in_run : bool) : pystr :=
  match s with
  | [] => []
  | c :: r =>
    if p c then (if in_run then sub_runs p r true else SPACE :: sub_runs p r true)
    else c :: sub_runs p r false
  end.

(** [re.sub(r"<[^>]+>", " ", s)].  [tag] is [None] outside a tag and
    [Some buf] after a [<], [buf] holding the characters read since then,
    newest first.  A [<] directly followed by [>] and a [<] that is never
    closed match nothing and stay as they are. *)
Fixpoint sub_tags (s : pystr) (tag : option pystr) : pystr :=
  match s with
  | [] =>
    match tag with
    | None => []
    | Some buf => LT :: rev buf
    end
  | c :: r =>
    match tag with
    | None => if (c =? LT)%N then sub_tags r (Some []) else c :: sub_tags r None
    | Some buf =>
      if (c =? GT)%N then
        match buf with
        | [] => LT :: GT :: sub_tags r None
        | _ => SPACE :: sub_tags r None
        end
      else sub_tags r (Some (c :: buf))
    end
  end.

(** [strip_html(html_text)] *)
Definition strip_html (html_text : pystr) : pystr :=
  let text := sub_tags html_text None in
  strip (sub_runs is_space text false).

(** [sanitize_subject(s)] *)
Definition sanitize_subject (s : pystr) : pystr :=
  strip (sub_runs is_newline s false).

(** [s[:n]]: a negative [n] counts from the end. *)
Definition slice_to (n : Z) (s : pystr) : pystr :=
  if n <? 0 then firstn (Z.to_nat (Z.of_nat (length s) + n)) s
  else firstn (Z.to_nat n) s.

Fixpoint split_once (sep : N) (s : pystr) : option (pystr * pystr) :=
  match s with
  | [] => None
  | c :: r =>
    if (c =? sep)%N then Some ([], r)
    else match split_once sep r with
         | Some (a, b) => Some (c :: a, b)
         | None => None
         end
  end.

(** [s.split(sep, 1)] for a one-character separator. *)
Definition str_split1 (sep : N) (s : pystr) : list pystr :=
  match split_once sep s with
  | Some (a, b) => [a; b]
  | None => [s]
  end.

(** [s.zfill(width)] for a string of digits. *)
Definition zfill (width : nat) (s : pystr) : pystr :=
  repeat 48%N (width - length s) ++ s.

(** ["%d" % z] *)
Definition str_of_Z (z : Z) : pystr :=
  lit (DecimalString.NilZero.string_of_int (Z.to_int z)).

(** [f"{z:06d}"]: the sign, when there is one, counts in the width. *)
Definition format_06d (z : Z) : pystr :=
  if z <? 0 then lit "-" ++ zfill 5 (str_of_Z (- z))
  else zfill 6 (str_of_Z z).

(** [f"{z:08x}"] for [z >= 0]. *)
Definition format_08x (z : Z) : pystr :=
  zfill 8 (lit (HexadecimalString.NilZero.string_of_uint (N.to_hex_uint (Z.to_N z)))).



(** The last component of a path: [Path.name]. *)
Fixpoint path_name_from (s acc : pystr) : pystr :=
  match s with
  | [] => acc
  | c :: r => if (c =? SLASH)%N then path_name_from r [] else path_name_from r (acc ++ [c])
  end.

Definition path_name (path : pystr) : pystr := path_name_from path [].

(** ** Messages

    An [EmailMessage] holds its headers in the order they were set, the
    plain-text content, the HTML alternative and the attachments. *)

Record Attachment : Type := {
  att_data : list N;
  att_maintype : pystr;
  att_subtype : pystr;
  att_filename : pystr
}.

Record EmailMessage : Type := {
  msg_headers : list (pystr * pystr);
  msg_content : option pystr;
  msg_alternative : option pystr;
  msg_attachments : list Attachment
}.

Definition EmailMessage_new : EmailMessage :=
  {| msg_headers := []; msg_content := None; msg_alternative := None;
     msg_attachments := [] |}.

(** [msg[name] = value] appends the header. *)
Definition set_header (name value : pystr) (msg : EmailMessage) : EmailMessage :=
  {| msg_headers := msg_headers msg ++ [(name, value)];
     msg_content := msg_content msg;
     msg_alternative := msg_alternative msg;
     msg_attachments := msg_attachments msg |}.

Definition set_content (text : pystr) (msg : EmailMessage) : EmailMessage :=
  {| msg_headers := msg_headers msg;
     msg_content := Some text;
     msg_alternative := msg_alternative msg;
     msg_attachments := msg_attachments msg |}.

Definition add_alternative (html : pystr) (msg : EmailMessage) : EmailMessage :=
  {| msg_headers := msg_headers msg;
     msg_content := msg_content msg;
     msg_alternative := Some html;
     msg_attachments := msg_attachments msg |}.

Definition add_attachment (a : Attachment) (msg : EmailMessage) : EmailMessage :=
  {| msg_headers := msg_headers msg;
     msg_content := msg_content msg;
     msg_alternative := msg_alternative msg;
     msg_attachments := msg_attachments msg ++ [a] |}.


(** The number of multipart containers of the message: one for the
    text/HTML alternative, one for the attachments. *)
Definition multipart_count (msg : EmailMessage) : nat :=
  ((match msg_alternative msg with Some _ => 1 | None => 0 end) +
   (match msg_attachments msg with [] => 0 | _ => 1 end))%nat.

(** [parse_domain_from_email(addr)] *)
Definition parse_domain_from_email (addr : pystr) : pystr :=
  let parts := str_split1 AT addr in
  if (length parts =? 2)%nat then default [] (parts !! 1%nat)
  else lit "localhost".

(** The text the subject is taken from: the HTML body without its markup
    for an HTML message, the plain-text body otherwise. *)
Definition subject_source (is_html : bool) (text_body : pystr)
    (html_body : option pystr) : pystr :=
  match html_body with
  | Some html => if is_html then strip_html html else text_body
  | None => text_body
  end.

(** The subject of [build_email]:
    [sanitize_subject(subj_source[:subject_len]) or "No subject"]. *)
Definition derive_subject (is_html : bool) (subject_len : Z)
    (text_body : pystr) (html_body : option pystr) : pystr :=
  let subj_source := subject_source is_html text_body html_body in
  match sanitize_subject (slice_to subject_len subj_source) with
  | [] => lit "No subject"
  | subject => subject
  end.

(** ** The host: files, library tables, the clock

    What the engine reads from outside: the lines of the list files, the
    directory listings (already filtered by extension), file contents
    ([None] when the read raises), the [mimetypes] table, the layout of
    [email.utils.formatdate] (its first argument in microseconds, the second
    is [localtime]), the rounding of [timedelta(seconds=...)], whether a path
    can be opened for writing, and the UTC offset of local time. *)

Record Host : Type := {
  file_lines : pystr -> list pystr;
  list_text_files : pystr -> list pystr;
  list_html_files : pystr -> list pystr;
  list_any_files : pystr -> list pystr;
  read_text : pystr -> option pystr;
  read_bytes : pystr -> option (list N);
  guess_type : pystr -> option pystr;
  formatdate : Z -> bool -> pystr;
  micros_of_seconds : float -> Z;
  open_for_write : pystr -> pystr -> bool;
  local_utcoffset : Z
}.

(** What differs from one run of the program to the next: the readings of
    the clock, in microseconds since the epoch (the [k]-th reading of the
    run is [clock k]), and the process id. *)
Record Process : Type := {
  clock : nat -> Z;
  getpid : Z
}.

(** [read_list_file(path)] *)
Definition read_list_file (host : Host) (path : pystr) : list pystr :=
  List.filter (fun s => negb (str_eqb s [])) (List.map strip (file_lines host path)).

(** [d.timestamp()], in microseconds; a naive value is read as local time. *)
Definition timestamp (host : Host) (d : datetime) : Z :=
  match dt_tzinfo d with
  | Some _ => utc_micros d - EPOCH_ORDINAL * 86400 * 1000000
  | None => (local_seconds d - local_utcoffset host) * 1000000 + dt_microsecond d
            - EPOCH_ORDINAL * 86400 * 1000000
  end.

(** [guess_mime_type(path)]: the unpacking of [ctype.split("/", 1)] raises
    when the type has no slash. *)
Definition guess_mime_type (host : Host) (path : pystr) : outcome (pystr * pystr) :=
  match guess_type host path with
  | None => Ok (lit "application", lit "octet-stream")
  | Some ctype =>
    match str_split1 SLASH ctype with
    | [maintype; subtype] => Ok (maintype, subtype)
    | _ => Raise (ValueError "not enough values to unpack (expected 2, got 1)")
    end
  end.

(** One line of the relay trace. *)
Definition received_line (host : Host) (src dst : pystr) (id : Z) (t : datetime)
  : pystr :=
  lit "from " ++ src ++ lit " by " ++ dst ++ lit " with ESMTP id "
    ++ format_08x id ++ lit "; " ++ formatdate host (timestamp host t) false.

(** ** Run configuration: the keys of the [config] dictionary *)

Record Config : Type := {
  seed : option Z;
  to_list : pystr;
  from_list : pystr;
  relay_hosts_file : pystr;
  body_dir : pystr;
  html_dir : pystr;
  attach_dir : pystr;
  output_dir : pystr;
  selection_mode : pystr;
  num_emails : Z;
  html_pct : Z;
  attach_pct : Z;
  subject_len : Z;
  max_attachments : Z;
  date_start : option datetime;
  date_end : option datetime;
  business_start_min : option Z;
  business_end_min : option Z;
  business_bias : option Z
}.

(** What the loop hands to the writer: the target, the message, and the
    boundary tokens drawn for its multipart containers while it is
    serialised. *)
Record Artifact : Type := {
  art_dir : pystr;
  art_name : pystr;
  art_message : EmailMessage;
  art_boundaries : list Z
}.

(** ** The generator of the [random] module

    [random.random], [random._randbelow], [random.getrandbits] and
    [random.sample] are the library's; the engine sees them through this
    interface.  [randint], [randrange] and [choice] are defined from
    [_randbelow] the way CPython's [random.py] defines them. *)

Class RandomGen (G : Type) : Type := {
  rg_seed : Z -> G;
  rg_random : G -> float * G;
  rg_randbelow : Z -> G -> Z * G;
  rg_getrandbits : Z -> G -> Z * G;
  rg_sample : forall A : Type, list A -> Z -> G -> list A * G;
  rg_randbelow_range :
    forall n g, 0 < n -> 0 <= fst (rg_randbelow n g) < n
}.

Section Engine.

Context {G : Type} `{RandomGen G}.

(** *** Computations that draw from the generator *)

Definition Rand (A : Type) : Type := G -> outcome A * G.

Definition ret {A} (a : A) : Rand A := fun g => (Ok a, g).

Definition raise {A} (e : exn) : Rand A := fun g => (Raise e, g).

Definition bind {A B} (c : Rand A) (k : A -> Rand B) : Rand B :=
  fun g =>
    match c g with
    | (Ok a, g') => k a g'
    | (Raise e, g') => (Raise e, g')
    end.

Notation "x <- c ;; k" := (bind c (fun x => k))
  (at level 100, c at next level, right associativity).

Definition random_random : Rand float :=
  fun g => let (x, g') := rg_random g in (Ok x, g').

Definition randbelow (n : Z) : Rand Z :=
  fun g => let (x, g') := rg_randbelow n g in (Ok x, g').

(** [random.randrange(n)]: [ValueError] on an empty range. *)
Definition randrange (n : Z) : Rand Z :=
  if 0 <? n then randbelow n
  else raise (ValueError "empty range for randrange()").

(** [random.randint(a, b)] is [randrange(a, b + 1)]. *)
Definition randint (a b : Z) : Rand Z :=
  if 0 <? b + 1 - a then
    r <- randbelow (b + 1 - a) ;; ret (a + r)
  else raise (ValueError "empty range for randrange()").

(** [random.choice(seq)]: [IndexError] on an empty sequence. *)
Definition choice {A} (items : list A) : Rand A :=
  match items with
  | [] => raise (IndexError "Cannot choose from an empty sequence")
  | _ =>
    i <- randbelow (Z.of_nat (length items)) ;;
    match items !! Z.to_nat i with
    | Some x => ret x
    | None => raise (IndexError "list index out of range")
    end
  end.

Definition getrandbits (k : Z) : Rand Z :=
  fun g => let (x, g') := rg_getrandbits k g in (Ok x, g').

Definition random_sample {A} (population : list A) (k : Z) : Rand (list A) :=
  fun g => let (x, g') := rg_sample A population k g in (Ok x, g').

(** ** Attachment-count distribution *)

Definition ATTACH_COUNT_DIST : list (Z * float) :=
  [ (1, 0.80%float); (2, 0.15%float); (3, 0.04%float); (4, 0.01%float) ].

(** [sum(weights)]: the floats added up from [0], left to right. *)
Definition float_sum (ws : list float) : float :=
  fold_left PrimFloat.add ws 0%float.

(** The scan of [weighted_choice]: the first item whose running weight
    reaches [r], or [None] when the scan falls through. *)
Fixpoint weighted_scan (pairs : list (Z * float)) (upto r : float) : option Z :=
  match pairs with
  | [] => None
  | (item, w) :: rest =>
    if PrimFloat.leb r (PrimFloat.add upto w) then Some item
    else weighted_scan rest (PrimFloat.add upto w) r
  end.

(** [weighted_choice(pairs, max_cap)].  [kept] is the filtered list of
    pairs.  [items, weights] are unpacked from [zip] applied to the starred
    [kept]: two tuples for a non-empty [kept]; for an empty [kept], [zip()]
    yields nothing and the unpacking raises [ValueError]. *)
Definition weighted_choice (pairs : list (Z * float)) (max_cap : Z) : Rand Z :=
  let kept := List.filter (fun cw => fst cw <=? max_cap) pairs in
  match kept with
  | [] => raise (ValueError "not enough values to unpack (expected 2, got 0)")
  | _ =>
    let items := List.map fst kept in
    let weights := List.map snd kept in
    let total := float_sum weights in
    if PrimFloat.leb total 0%float then ret 1
    else
      x <- random_random ;;
      let r := PrimFloat.mul x total in
      match weighted_scan kept 0%float r with
      | Some item => ret item
      | None => ret (List.last items 0)
      end
  end.

(** ** Selector *)

Record Selector : Type := {
  mode : pystr;
  _idx : gmap Z Z
}.

(** [Selector.__init__] *)
Definition Selector_init (m : pystr) : Selector :=
  {| mode := m; _idx := ∅ |}.

(** [Selector.choose(key, items)]; the updated selector is returned next to
    the choice.  [_idx.get(key, 0)] is [default 0 (_idx !! key)]; [i % len]
    is never negative, so the index is never counted from the end. *)
Definition choose {A} (self : Selector) (key : Z) (items : list A)
  : Rand (A * Selector) :=
  match items with
  | [] => raise (ValueError "Selection list is empty.")
  | _ =>
    if str_eqb (mode self) (lit "random") then
      c <- choice items ;; ret (c, self)
    else
      let i := default 0 (_idx self !! key) in
      let n := Z.of_nat (length items) in
      match items !! Z.to_nat (i mod n) with
      | Some value =>
        ret (value, {| mode := mode self;
                       _idx := <[key := (i + 1) mod n]> (_idx self) |})
      | None => raise (IndexError "list index out of range")
      end
  end.

(** [for _ in range(count): acc.append(selector.choose(key, items))] *)
Fixpoint choose_times {A} (self : Selector) (key : Z) (items : list A)
    (count : nat) : Rand (list A * Selector) :=
  match count with
  | O => ret ([], self)
  | S count' =>
    r <- choose self key items ;;
    rs <- choose_times (snd r) key items count' ;;
    ret (fst r :: fst rs, snd rs)
  end.

(** ** Date utilities *)

Definition lift_outcome {A} (o : outcome A) : Rand A := fun g => (o, g).

(** [random.uniform(a, b)] is [a + (b - a) * random()]. *)
Definition random_uniform (a b : float) : Rand float :=
  x <- random_random ;;
  ret (PrimFloat.add a (PrimFloat.mul (PrimFloat.sub b a) x)).

(** [random_date_in_range(start, end)].  [total_seconds()] divides the
    microseconds of the difference by [10**6]; [micros_of_seconds] is the
    rounding of [timedelta(seconds=offset)] to whole microseconds, which is
    the library's. *)
Definition random_date_in_range (micros_of_seconds : float -> Z)
    (start end_ : datetime) : Rand datetime :=
  match dt_tzinfo start, dt_tzinfo end_ with
  | Some _, Some _ =>
    let delta_seconds :=
      PrimFloat.div (float_of_Z (utc_micros end_ - utc_micros start))
                    (float_of_Z 1000000) in
    if PrimFloat.ltb delta_seconds 0%float then
      raise (ValueError "Start must be <= end")
    else
      offset <- random_uniform 0%float delta_seconds ;;
      ret (dt_add_micros start (micros_of_seconds offset))
  | _, _ => raise (ValueError "Start/end must be timezone-aware")
  end.

(** [random_date_weighted(start, end, business_start_min, business_end_min,
    business_bias)] *)
Definition random_date_weighted (start end_ : datetime)
    (business_start_min business_end_min business_bias : Z) : Rand datetime :=
  match dt_tzinfo start, dt_tzinfo end_ with
  | Some _, Some _ =>
    if dt_ordinal end_ <? dt_ordinal start then
      raise (ValueError "Start date must be <= end date")
    else
      let day_span := dt_ordinal end_ - dt_ordinal start in
      day_offset <- randint 0 day_span ;;
      let day := dt_ordinal start + day_offset in
      b <- randint 1 100 ;;
      let in_business := b <=? business_bias in
      minute_in_day <-
        (if in_business && (business_start_min <? business_end_min) then
           randint business_start_min (business_end_min - 1)
         else
           let off1 := py_range 0 business_start_min in
           let off2 := py_range business_end_min (24 * 60) in
           let off_all := off1 ++ off2 in
           match off_all with
           | [] => randint business_start_min (business_end_min - 1)
           | _ => choice off_all
           end) ;;
      let hour := minute_in_day / 60 in
      let minute := minute_in_day mod 60 in
      second <- randint 0 59 ;;
      dt <- lift_outcome (datetime_new day hour minute second utc) ;;
      if dt_ltb dt start then ret start
      else if dt_ltb end_ dt then ret end_
      else ret dt
  | _, _ => raise (ValueError "Start/end must be timezone-aware")
  end.

(** ** Computations that also read the clock and write files *)

Record World : Type := {
  w_rng : G;
  w_tick : nat;
  w_written : list Artifact
}.

Definition Run (A : Type) : Type := World -> outcome A * World.

Definition ret_ {A} (a : A) : Run A := fun w => (Ok a, w).

Definition raise_ {A} (e : exn) : Run A := fun w => (Raise e, w).

Definition bind_ {A B} (c : Run A) (k : A -> Run B) : Run B :=
  fun w =>
    match c w with
    | (Ok a, w') => k a w'
    | (Raise e, w') => (Raise e, w')
    end.

Notation "x <~ c ;; k" := (bind_ c (fun x => k))
  (at level 100, c at next level, right associativity).

Definition with_rng (g : G) (w : World) : World :=
  {| w_rng := g; w_tick := w_tick w; w_written := w_written w |}.

(** A computation on the generator, run on the generator of the world. *)
Definition draw {A} (c : Rand A) : Run A :=
  fun w => let (o, g') := c (w_rng w) in (o, with_rng g' w).

Variable host : Host.
Variable proc : Process.

(** One reading of the clock, in microseconds since the epoch. *)
Definition read_clock : Run Z :=
  fun w =>
    (Ok (clock proc (w_tick w)),
     {| w_rng := w_rng w; w_tick := S (w_tick w); w_written := w_written w |}).

(** [random.seed(s)] *)
Definition random_seed (s : Z) : Run unit :=
  fun w =>
    (Ok tt, {| w_rng := rg_seed s; w_tick := w_tick w; w_written := w_written w |}).

(** ** Engine: headers and message *)

(** [[random.choice(items) for _ in range(n)]] *)
Fixpoint choice_times {A} (items : list A) (n : nat) : Rand (list A) :=
  match n with
  | O => ret []
  | S n' =>
    x <- choice items ;;
    xs <- choice_times items n' ;;
    ret (x :: xs)
  end.

(** The first loop of [gen_received_headers]: [n] hop times after [t]. *)
Fixpoint gen_hop_times (t : datetime) (n : nat) : Rand (list datetime) :=
  match n with
  | O => ret []
  | S n' =>
    s <- randint 30 90 ;;
    let t' := dt_add_seconds t s in
    rest <- gen_hop_times t' n' ;;
    ret (t' :: rest)
  end.

(** The second loop of [gen_received_headers], over the indices [idxs]. *)
Fixpoint gen_hop_lines (chain : list pystr) (hop_times : list datetime)
    (idxs : list nat) : Rand (list pystr) :=
  match idxs with
  | [] => ret []
  | i :: rest =>
    match chain !! i, chain !! S i, hop_times !! i with
    | Some src, Some dst, Some t =>
      id <- randrange (16 ^ 8) ;;
      hs <- gen_hop_lines chain hop_times rest ;;
      ret (received_line host src dst id t :: hs)
    | _, _, _ => raise (IndexError "list index out of range")
    end
  end.

(** The anchor of a chain: the send time, or the clock when there is none;
    and the count of clock readings after the anchor is taken. *)
Definition chain_anchor (base_date : option datetime) (w : World) : datetime :=
  match base_date with
  | Some d => d
  | None => dt_of_timestamp_utc (clock proc (w_tick w))
  end.

Definition chain_tick (base_date : option datetime) (w : World) : nat :=
  match base_date with
  | Some _ => w_tick w
  | None => S (w_tick w)
  end.

(** The first half of [gen_received_headers], for a non-empty host list:
    the hop count, the chain of hosts, the anchor and the hop times.  It
    returns the variables [chain] and [hop_times]. *)
Definition gen_hop_schedule (relay_hosts : list pystr) (hops_min hops_max : Z)
    (base_date : option datetime) : Run (Z * list pystr * list datetime) :=
  hops <~ draw (randint hops_min hops_max) ;;
  chain <~ draw (choice_times relay_hosts (Z.to_nat (hops + 1))) ;;
  anchor <~ match base_date with
            | Some d => ret_ d
            | None => now <~ read_clock ;; ret_ (dt_of_timestamp_utc now)
            end ;;
  m <~ draw (randint 5 15) ;;
  let oldest := dt_sub_minutes anchor m in
  hop_times <~ draw (gen_hop_times oldest (Z.to_nat hops)) ;;
  ret_ (hops, chain, hop_times).

(** [gen_received_headers(relay_hosts, hops_min, hops_max, base_date)] *)
Definition gen_received_headers (relay_hosts : list pystr) (hops_min hops_max : Z)
    (base_date : option datetime) : Run (list pystr) :=
  match relay_hosts with
  | [] => ret_ []
  | _ =>
    sch <~ gen_hop_schedule relay_hosts hops_min hops_max base_date ;;
    let '(hops, chain, hop_times) := sch in
    draw (gen_hop_lines chain hop_times (seq 0 (Z.to_nat hops)))
  end.

(** The text of a Message-ID: ["<%d.%d.%d@%s>"]. *)
Definition msgid_text (timeval pid r : Z) (domain : pystr) : pystr :=
  lit "<" ++ str_of_Z timeval ++ lit "." ++ str_of_Z pid ++ lit "."
    ++ str_of_Z r ++ lit "@" ++ domain ++ lit ">".

(** [email.utils.make_msgid(domain=domain)]: hundredths of a second of the
    clock, the process id and 64 random bits, then the domain. *)
Definition make_msgid (domain : pystr) : Run pystr :=
  now <~ read_clock ;;
  let timeval := Z.quot now 10000 in
  let pid := getpid proc in
  r <~ draw (getrandbits 64) ;;
  ret_ (msgid_text timeval pid r domain).

(** The attachment loop of [build_email]: a path whose type cannot be
    unpacked or whose bytes cannot be read is skipped. *)
Definition attach_file (msg : EmailMessage) (ap : pystr) : EmailMessage :=
  match guess_mime_type host ap with
  | Ok (maintype, subtype) =>
    match read_bytes host ap with
    | Some data =>
      add_attachment {| att_data := data; att_maintype := maintype;
                        att_subtype := subtype; att_filename := path_name ap |} msg
    | None => msg
    end
  | Raise _ => msg
  end.

(** [x or "(no text)"] *)
Definition or_no_text (x : pystr) : pystr :=
  match x with [] => lit "(no text)" | _ => x end.

(** [build_email(from_addr, to_addr, is_html, subject_len, text_body,
    html_body, attach_paths, relay_hosts, msg_date)] *)
Definition build_email (from_addr to_addr : pystr) (is_html : bool)
    (subject_len : Z) (text_body : pystr) (html_body : option pystr)
    (attach_paths : list pystr) (relay_hosts : list pystr)
    (msg_date : option datetime) : Run EmailMessage :=
  let msg := EmailMessage_new in
  rhs <~ gen_received_headers relay_hosts 1 3 msg_date ;;
  let msg := fold_left (fun m rh => set_header (lit "Received") rh m) rhs msg in
  let msg := set_header (lit "From") from_addr msg in
  let msg := set_header (lit "To") to_addr msg in
  let from_domain := parse_domain_from_email from_addr in
  msgid <~ make_msgid from_domain ;;
  let msg := set_header (lit "Message-ID") msgid msg in
  date <~ match msg_date with
          | Some d => ret_ (formatdate host (timestamp host d) false)
          | None => now <~ read_clock ;; ret_ (formatdate host now true)
          end ;;
  let msg := set_header (lit "Date") date msg in
  let msg := set_header (lit "X-Mailer") (lit "email_builder/1.0") msg in
  let subject := derive_subject is_html subject_len text_body html_body in
  let msg := set_header (lit "Subject") subject msg in
  let msg :=
    match html_body with
    | Some html =>
      if is_html then
        let fallback_text :=
          match text_body with [] => strip_html html | _ => text_body end in
        add_alternative html (set_content (or_no_text fallback_text) msg)
      else set_content (or_no_text text_body) msg
    | None => set_content (or_no_text text_body) msg
    end in
  ret_ (fold_left attach_file attach_paths msg).

(** The message of [build_email] as a function of what its effects
    returned: the relay lines, the Message-ID and the date text. *)
Definition assemble_message (rhs : list pystr) (from_addr to_addr msgid date : pystr)
    (is_html : bool) (subject_len : Z) (text_body : pystr)
    (html_body : option pystr) (attach_paths : list pystr) : EmailMessage :=
  let msg := fold_left (fun m rh => set_header (lit "Received") rh m) rhs
               EmailMessage_new in
  let msg := set_header (lit "From") from_addr msg in
  let msg := set_header (lit "To") to_addr msg in
  let msg := set_header (lit "Message-ID") msgid msg in
  let msg := set_header (lit "Date") date msg in
  let msg := set_header (lit "X-Mailer") (lit "email_builder/1.0") msg in
  let subject := derive_subject is_html subject_len text_body html_body in
  let msg := set_header (lit "Subject") subject msg in
  let msg :=
    match html_body with
    | Some html =>
      if is_html then
        let fallback_text :=
          match text_body with [] => strip_html html | _ => text_body end in
        add_alternative html (set_content (or_no_text fallback_text) msg)
      else set_content (or_no_text text_body) msg
    | None => set_content (or_no_text text_body) msg
    end in
  fold_left attach_file attach_paths msg.

(** The count of clock readings after [gen_received_headers]. *)
Definition received_tick (relay_hosts : list pystr) (base_date : option datetime)
    (w : World) : nat :=
  match relay_hosts with
  | [] => w_tick w
  | _ => chain_tick base_date w
  end.

(** The text of the Date header: the send time, or the clock reading [now]
    when there is none. *)
Definition date_text (msg_date : option datetime) (now : Z) : pystr :=
  match msg_date with
  | Some d => formatdate host (timestamp host d) false
  | None => formatdate host now true
  end.

(** ** Generation loop *)

Definition KEY_FROM : Z := 1.
Definition KEY_TO : Z := 2.
Definition KEY_TEXT : Z := 3.
Definition KEY_HTML : Z := 4.
Definition KEY_ATTACH : Z := 5.

(** [sys.maxsize] *)
Definition MAXSIZE : Z := 2 ^ 63 - 1.

Definition nonempty {A} (l : list A) : bool :=
  match l with [] => false | _ => true end.

(** The bodies of one iteration: [(choose_html, chosen_text, chosen_html)]
    and the selector after the calls. *)
Definition choose_bodies (selector : Selector) (want_html : bool)
    (text_files html_files : list pystr)
  : Rand (bool * pystr * option pystr * Selector) :=
  st <- (if want_html then
           r <- choose selector KEY_HTML html_files ;;
           match read_text host (fst r) with
           | Some html => ret (true, Some html, snd r)
           | None => ret (false, None, snd r)
           end
         else ret (false, None, selector)) ;;
  let '(choose_html, chosen_html, selector) := st in
  if choose_html then ret (true, [], chosen_html, selector)
  else if nonempty text_files then
    r <- choose selector KEY_TEXT text_files ;;
    match read_text host (fst r) with
    | Some text => ret (false, text, chosen_html, snd r)
    | None => ret (false, lit "(no text)", chosen_html, snd r)
    end
  else
    r <- choose selector KEY_HTML html_files ;;
    match read_text host (fst r) with
    | Some html => ret (false, strip_html html, Some html, snd r)
    | None => ret (false, lit "(no text)", chosen_html, snd r)
    end.

(** The attachment paths of one iteration. *)
Definition choose_attachments (config : Config) (selector : Selector)
    (attach_files : list pystr) (attach_probability : float)
  : Rand (list pystr * Selector) :=
  if nonempty attach_files then
    x <- random_random ;;
    if PrimFloat.ltb x attach_probability then
      count <- weighted_choice ATTACH_COUNT_DIST (max_attachments config) ;;
      if str_eqb (selection_mode config) (lit "linear") then
        choose_times selector KEY_ATTACH attach_files (Z.to_nat count)
      else if count <=? Z.of_nat (length attach_files) then
        l <- random_sample attach_files count ;; ret (l, selector)
      else
        more <- choice_times attach_files
                  (Z.to_nat (count - Z.of_nat (length attach_files))) ;;
        ret (attach_files ++ more, selector)
    else ret ([], selector)
  else ret ([], selector).

(** The send time of one iteration. *)
Definition choose_date (config : Config) : Rand (option datetime) :=
  match date_start config, date_end config with
  | Some ds, Some de =>
    match business_start_min config, business_end_min config,
          business_bias config with
    | Some bs, Some be, Some bias =>
      d <- random_date_weighted ds de bs be bias ;; ret (Some d)
    | _, _, _ =>
      d <- random_date_in_range (micros_of_seconds host) ds de ;; ret (Some d)
    end
  | _, _ => ret None
  end.

(** [random.randrange(sys.maxsize)], once per multipart container: the
    boundary tokens that [bytes(msg)] draws. *)
Fixpoint draw_boundaries (n : nat) : Rand (list Z) :=
  match n with
  | O => ret []
  | S n' =>
    t <- randrange MAXSIZE ;;
    ts <- draw_boundaries n' ;;
    ret (t :: ts)
  end.

(** The end of an iteration: the file is opened, the message serialised and
    written; a failure ends the run with [sys.exit(1)]. *)
Definition write_message (out_dir filename : pystr) (msg : EmailMessage) : Run unit :=
  if open_for_write host out_dir filename then
    tokens <~ draw (draw_boundaries (multipart_count msg)) ;;
    fun w =>
      (Ok tt,
       {| w_rng := w_rng w; w_tick := w_tick w;
          w_written := w_written w ++
            [ {| art_dir := out_dir; art_name := filename;
                 art_message := msg; art_boundaries := tokens |} ] |})
  else raise_ (SystemExit 1).

(** [f"email_{i:06d}.eml"] *)
Definition email_filename (i : Z) : pystr :=
  lit "email_" ++ format_06d i ++ lit ".eml".

(** The body of the loop of [run_generation] for index [i]. *)
Definition generation_step (config : Config)
    (to_addrs from_addrs relay_hosts text_files html_files attach_files : list pystr)
    (html_probability attach_probability : float)
    (selector : Selector) (i : Z) : Run Selector :=
  r <~ draw (choose selector KEY_FROM from_addrs) ;;
  let '(from_addr, selector) := r in
  r <~ draw (choose selector KEY_TO to_addrs) ;;
  let '(to_addr, selector) := r in
  x <~ draw random_random ;;
  let want_html := PrimFloat.ltb x html_probability && nonempty html_files in
  r <~ draw (choose_bodies selector want_html text_files html_files) ;;
  let '(choose_html, chosen_text, chosen_html, selector) := r in
  r <~ draw (choose_attachments config selector attach_files attach_probability) ;;
  let '(attach_list, selector) := r in
  msg_date <~ draw (choose_date config) ;;
  msg <~ build_email from_addr to_addr choose_html (subject_len config)
           chosen_text chosen_html attach_list relay_hosts msg_date ;;
  _ <~ write_message (output_dir config) (email_filename i) msg ;;
  ret_ selector.

(** [for i in range(1, total + 1): ...] over the indices [idxs]. *)
Fixpoint generation_loop (config : Config)
    (to_addrs from_addrs relay_hosts text_files html_files attach_files : list pystr)
    (html_probability attach_probability : float)
    (selector : Selector) (idxs : list Z) : Run unit :=
  match idxs with
  | [] => ret_ tt
  | i :: rest =>
    selector' <~ generation_step config to_addrs from_addrs relay_hosts text_files
                   html_files attach_files html_probability attach_probability
                   selector i ;;
    generation_loop config to_addrs from_addrs relay_hosts text_files html_files
      attach_files html_probability attach_probability selector' rest
  end.

(** [run_generation(config)] *)
Definition run_generation (config : Config) : Run unit :=
  _ <~ match seed config with
       | Some s => random_seed s
       | None => ret_ tt
       end ;;
  let to_addrs := read_list_file host (to_list config) in
  let from_addrs := read_list_file host (from_list config) in
  let relay_hosts := read_list_file host (relay_hosts_file config) in
  let text_files := list_text_files host (body_dir config) in
  let html_files := list_html_files host (html_dir config) in
  let attach_files := list_any_files host (attach_dir config) in
  if negb (nonempty to_addrs) then raise_ (SystemExit 1)
  else if negb (nonempty from_addrs) then raise_ (SystemExit 1)
  else if negb (nonempty text_files) && negb (nonempty html_files) then
    raise_ (SystemExit 1)
  else
    let selector := Selector_init (selection_mode config) in
    let total := num_emails config in
    let html_probability :=
      PrimFloat.div (float_of_Z (html_pct config)) (float_of_Z 100) in
    let attach_probability :=
      PrimFloat.div (float_of_Z (attach_pct config)) (float_of_Z 100) in
    generation_loop config to_addrs from_addrs relay_hosts text_files html_files
      attach_files html_probability attach_probability selector
      (py_range 1 (total + 1)).

(** ** Normal forms and views used in the further properties *)

(** Every white-space character of [s] is a plain space and no two are
    adjacent; [prev_space] tells that the character before [s] was one. *)
Fixpoint single_spaced (s : pystr) (prev_space : bool) : bool :=
  match s with
  | [] => true
  | c :: r =>
    if is_space c then (c =? SPACE)%N && negb prev_space && single_spaced r true
    else single_spaced r false
  end.

(** What the attachment loop of [build_email] adds for one path: nothing
    when the type cannot be unpacked or the bytes cannot be read. *)
Definition attachment_of (ap : pystr) : option Attachment :=
  match guess_mime_type host ap with
  | Ok (maintype, subtype) =>
    match read_bytes host ap with
    | Some data =>
      Some {| att_data := data; att_maintype := maintype;
              att_subtype := subtype; att_filename := path_name ap |}
    | None => None
    end
  | Raise _ => None
  end.

(** ** Validity of a run's inputs *)

Definition is_aware (d : datetime) : bool :=
  match dt_tzinfo d with Some _ => true | None => false end.

(** The date keys as [load_config] sets them: none of them, or all five,
    with the checks of [validate_args] and [parse_business_hours]. *)
Definition valid_dates (config : Config) : bool :=
  match date_start config, date_end config, business_start_min config,
        business_end_min config, business_bias config with
  | None, None, None, None, None => true
  | Some ds, Some de, Some bs, Some be, Some bias =>
    is_aware ds && is_aware de && (dt_ordinal ds <=? dt_ordinal de)
    && (0 <=? bs) && (bs <? be) && (be <=? 24 * 60)
    && (0 <=? bias) && (bias <=? 100)
  | _, _, _, _, _ => false
  end.

(** The checks of [validate_args]. *)
Definition valid_config (config : Config) : bool :=
  (0 <=? html_pct config) && (html_pct config <=? 100)
  && (0 <=? attach_pct config) && (attach_pct config <=? 100)
  && (1 <=? subject_len config) && (0 <? num_emails config)
  && (1 <=? max_attachments config) && valid_dates config.

(** The checks of [run_generation] on the pools it loaded. *)
Definition valid_pools (config : Config) : bool :=
  nonempty (read_list_file host (to_list config))
  && nonempty (read_list_file host (from_list config))
  && (nonempty (list_text_files host (body_dir config))
      || nonempty (list_html_files host (html_dir config))).

(** ** Specifications of computations

    [rand_post c P]: from every generator, [c] returns a value satisfying
    [P].  [run_quiet c P]: from every world, [c] returns a value satisfying
    [P] and writes nothing. *)


Definition run_quiet {A} (c : Run A) (P : A -> Prop) : Prop :=
  forall w, exists a w', c w = (Ok a, w') /\ w_written w' = w_written w /\ P a.

(** ** Comparing two runs

    [erase_msgid] removes the Message-ID header of a message.  Two worlds
    are [similar] when they hold the same generator and have written the
    same artifacts up to the Message-ID header; two results [agree] when
    their outcomes are equal and their worlds similar. *)







End Engine.

(** [ts] are hop times after [t]: each one is the previous one plus 30 to
    90 seconds. *)
Fixpoint hop_steps (t : datetime) (ts : list datetime) : Prop :=
  match ts with
  | [] => True
  | t1 :: rest =>
    (exists s, 30 <= s <= 90 /\ t1 = dt_add_seconds t s) /\ hop_steps t1 rest
  end.

Definition outcome_map {A B} (f : A -> B) (o : outcome A) : outcome B :=
  match o with Ok a => Ok (f a) | Raise e => Raise e end.

(** The cursor that [choose] reads: [_idx.get(key, 0)]. *)
Definition cursor (self : Selector) (key : Z) : Z :=
  default 0 (_idx self !! key).

(** ** Command line: business hours, validation, configuration *)

Definition COLON : N := 58%N.
Definition DASH : N := 45%N.

(** [f"{z:02d}"]: the sign, when there is one, counts in the width. *)
Definition format_02d (z : Z) : pystr :=
  if z <? 0 then lit "-" ++ zfill 1 (str_of_Z (- z))
  else zfill 2 (str_of_Z z).

(** [mins_to_hhmm(mins)] *)
Definition mins_to_hhmm (mins : option Z) : pystr :=
  match mins with
  | None => lit "--:--"
  | Some m => format_02d (m / 60) ++ lit ":" ++ format_02d (m mod 60)
  end.

(** The truth value of an optional string argument: [None] and the empty
    string are false. *)
Definition given (o : option pystr) : bool :=
  match o with
  | Some (_ :: _) => true
  | _ => false
  end.

(** [d + timedelta(days=n)] *)
Definition dt_add_days (d : datetime) (n : Z) : datetime :=
  dt_add_micros d (n * 86400 * 1000000).

(** [d + timedelta(days=1) - timedelta(seconds=1)] *)
Definition end_of_range (d : datetime) : datetime :=
  dt_add_seconds (dt_add_days d 1) (- 1).

(** What [argparse] returns: an option that was not given is [None], except
    where the parser has a default. *)
Record Args : Type := {
  a_profile : option pystr;
  a_to_list : pystr;
  a_from_list : pystr;
  a_body_dir : pystr;
  a_html_dir : pystr;
  a_attach_dir : pystr;
  a_relay_hosts : pystr;
  a_html_pct : option Z;
  a_attach_pct : option Z;
  a_subject_len : option Z;
  a_num_emails : option Z;
  a_output_dir : option pystr;
  a_selection_mode : pystr;
  a_max_attachments : option Z;
  a_seed : option Z;
  a_date_start : option pystr;
  a_date_end : option pystr;
  a_business_hours : pystr;
  a_business_bias : Z;
  a_verbose : bool
}.

(** The five keys of a profile. *)
Record Profile : Type := {
  p_html_pct : Z;
  p_attach_pct : Z;
  p_subject_len : Z;
  p_num_emails : Z;
  p_output_dir : pystr
}.

(** [PROFILE_DEFAULTS] *)
Definition PROFILE_DEFAULTS (name : pystr) : option Profile :=
  if str_eqb name (lit "mixed_business") then
    Some {| p_html_pct := 88; p_attach_pct := 25; p_subject_len := 50;
            p_num_emails := 1000; p_output_dir := lit "output_emails/" |}
  else if str_eqb name (lit "internal_ops") then
    Some {| p_html_pct := 75; p_attach_pct := 15; p_subject_len := 50;
            p_num_emails := 1000; p_output_dir := lit "output_emails/" |}
  else if str_eqb name (lit "marketing") then
    Some {| p_html_pct := 98; p_attach_pct := 2; p_subject_len := 50;
            p_num_emails := 1000; p_output_dir := lit "output_emails/" |}
  else None.

(** The date keys of the configuration, set together or not at all:
    [date_start], [date_end], [business_start_min], [business_end_min],
    [business_bias]. *)
Record DateKeys : Type := {
  k_date_start : datetime;
  k_date_end : datetime;
  k_business_start_min : Z;
  k_business_end_min : Z;
  k_business_bias : Z
}.

(** The dictionary that [load_config] returns: the five keys that come from
    the profile or the command line may be missing. *)
Record ConfigDict : Type := {
  cd_html_pct : option Z;
  cd_attach_pct : option Z;
  cd_subject_len : option Z;
  cd_num_emails : option Z;
  cd_output_dir : option pystr;
  cd_to_list : pystr;
  cd_from_list : pystr;
  cd_body_dir : pystr;
  cd_html_dir : pystr;
  cd_attach_dir : pystr;
  cd_relay_hosts : pystr;
  cd_selection_mode : pystr;
  cd_max_attachments : option Z;
  cd_seed : option Z;
  cd_verbose : bool;
  cd_dates : option DateKeys
}.

Inductive load_result : Type :=
| Loaded (config : ConfigDict)
| LoadKeyError (key : pystr)
| LoadExit (code : Z).

(** The dictionary as [run_generation] reads it: every key it indexes must
    be there ([int(None)] raises as a missing key does). *)
Definition config_of_dict (cd : ConfigDict) : option Config :=
  match cd_html_pct cd, cd_attach_pct cd, cd_subject_len cd, cd_num_emails cd,
        cd_output_dir cd, cd_max_attachments cd with
  | Some hp, Some ap, Some sl, Some ne, Some od, Some ma =>
    Some {| seed := cd_seed cd;
            to_list := cd_to_list cd;
            from_list := cd_from_list cd;
            relay_hosts_file := cd_relay_hosts cd;
            body_dir := cd_body_dir cd;
            html_dir := cd_html_dir cd;
            attach_dir := cd_attach_dir cd;
            output_dir := od;
            selection_mode := cd_selection_mode cd;
            num_emails := ne;
            html_pct := hp;
            attach_pct := ap;
            subject_len := sl;
            max_attachments := ma;
            date_start := k_date_start <$> cd_dates cd;
            date_end := k_date_end <$> cd_dates cd;
            business_start_min := k_business_start_min <$> cd_dates cd;
            business_end_min := k_business_end_min <$> cd_dates cd;
            business_bias := k_business_bias <$> cd_dates cd |}
  | _, _, _, _, _, _ => None
  end.

Section CommandLine.

(** From outside: the decimal digits of Unicode ([digit_value c] is the
    value of [c] when [\d] matches it, which is also how [int] reads it),
    [datetime.strptime(s, "%Y-%m-%d")] as the ordinal of the date it parses
    ([None] when it raises), and the file tests of [os.path]. *)
Variable digit_value : N -> option Z.
Variable strptime_ymd : pystr -> option Z.
Variable isfile : pystr -> bool.
Variable isdir : pystr -> bool.

(** [int] of a match of [\d{2}]. *)
Definition two_digits (a b : N) : option Z :=
  match digit_value a, digit_value b with
  | Some x, Some y => Some (10 * x + y)
  | _, _ => None
  end.

(** [parse_business_hours(spec)]: the pattern
    [^(\d{2}):(\d{2})-(\d{2}):(\d{2})$] on the stripped text, then the range
    checks; every failure is [sys.exit(1)]. *)
Definition parse_business_hours (spec : pystr) : outcome (Z * Z) :=
  match strip spec with
  | [s1; s2; c1; s3; s4; d; e1; e2; c2; e3; e4] =>
    if ((c1 =? COLON) && (d =? DASH) && (c2 =? COLON))%N then
      match two_digits s1 s2, two_digits s3 s4, two_digits e1 e2, two_digits e3 e4 with
      | Some sh, Some sm, Some eh, Some em =>
        if negb ((0 <=? sh) && (sh <=? 23) && ((0 <=? sm) && (sm <=? 59))) then
          Raise (SystemExit 1)
        else if negb (((0 <=? eh) && (eh <=? 24))
                      && (if eh <? 24 then (0 <=? em) && (em <=? 59) else em =? 0)) then
          Raise (SystemExit 1)
        else
          let start_min := sh * 60 + sm in
          let end_min := if eh <? 24 then eh * 60 + em else 24 * 60 in
          Ok (start_min, end_min)
      | _, _, _, _ => Raise (SystemExit 1)
      end
    else Raise (SystemExit 1)
  | _ => Raise (SystemExit 1)
  end.

(** [parse_date_utc(date_str)] *)
Definition parse_date_utc (date_str : pystr) : outcome datetime :=
  match strptime_ymd date_str with
  | Some ord =>
    Ok {| dt_ordinal := ord; dt_hour := 0; dt_minute := 0; dt_second := 0;
          dt_microsecond := 0; dt_tzinfo := utc |}
  | None => Raise (SystemExit 1)
  end.

(** [validate_date_range_args(args)] *)
Definition validate_date_range_args (args : Args) : outcome unit :=
  if given (a_date_start args) || given (a_date_end args) then
    if negb (given (a_date_start args) && given (a_date_end args)) then
      Raise (SystemExit 1)
    else
      match parse_date_utc (default [] (a_date_start args)) with
      | Raise e => Raise e
      | Ok start =>
        match parse_date_utc (default [] (a_date_end args)) with
        | Raise e => Raise e
        | Ok end0 =>
          let end_ := end_of_range end0 in
          if dt_ltb end_ start then Raise (SystemExit 1) else Ok tt
        end
      end
  else Ok tt.

(** [x is not None and not (lo <= x <= hi)] and its one-sided forms. *)
Definition out_of_range (x : option Z) (lo hi : Z) : bool :=
  match x with
  | Some v => negb ((lo <=? v) && (v <=? hi))
  | None => false
  end.

Definition below (x : option Z) (lo : Z) : bool :=
  match x with
  | Some v => v <? lo
  | None => false
  end.

(** [validate_args(args)] *)
Definition validate_args (args : Args) : outcome unit :=
  if negb (forallb isfile [a_to_list args; a_from_list args; a_relay_hosts args]) then
    Raise (SystemExit 1)
  else if negb (forallb isdir [a_body_dir args; a_html_dir args; a_attach_dir args]) then
    Raise (SystemExit 1)
  else if out_of_range (a_html_pct args) 0 100 then Raise (SystemExit 1)
  else if out_of_range (a_attach_pct args) 0 100 then Raise (SystemExit 1)
  else if below (a_subject_len args) 1 then Raise (SystemExit 1)
  else if below (a_num_emails args) 1 then Raise (SystemExit 1)
  else if below (a_max_attachments args) 1 then Raise (SystemExit 1)
  else
    match validate_date_range_args args with
    | Raise e => Raise e
    | Ok _ =>
      if given (a_date_start args) && given (a_date_end args) then
        match parse_business_hours (a_business_hours args) with
        | Raise e => Raise e
        | Ok (bh_start_min, bh_end_min) =>
          if negb ((0 <=? a_business_bias args) && (a_business_bias args <=? 100)) then
            Raise (SystemExit 1)
          else if bh_end_min <=? bh_start_min then Raise (SystemExit 1)
          else Ok tt
        end
      else Ok tt
    end.

(** The value of one of the five keys: the command line when it gives one,
    else the profile when there is one. *)
Definition merged {A} (from_args : option A) (from_profile : option A) : option A :=
  match from_args with
  | Some v => Some v
  | None => from_profile
  end.

(** [load_config(args)].  The creation of the output directory is an effect
    on the file system and is left out. *)
Definition load_config (args : Args) : load_result :=
  let profile_lookup :=
    if given (a_profile args) then
      match PROFILE_DEFAULTS (default [] (a_profile args)) with
      | Some p => inl (Some p)
      | None => inr (default [] (a_profile args))
      end
    else inl None in
  match profile_lookup with
  | inr name => LoadKeyError name
  | inl profile =>
    let dates :=
      if given (a_date_start args) && given (a_date_end args) then
        match parse_date_utc (default [] (a_date_start args)) with
        | Raise _ => inr tt
        | Ok date_start =>
          match parse_date_utc (default [] (a_date_end args)) with
          | Raise _ => inr tt
          | Ok end0 =>
            match parse_business_hours (a_business_hours args) with
            | Raise _ => inr tt
            | Ok (bh_start_min, bh_end_min) =>
              inl (Some {| k_date_start := date_start;
                           k_date_end := end_of_range end0;
                           k_business_start_min := bh_start_min;
                           k_business_end_min := bh_end_min;
                           k_business_bias := a_business_bias args |})
            end
          end
        end
      else inl None in
    match dates with
    | inr _ => LoadExit 1
    | inl date_keys =>
      let config :=
        {| cd_html_pct := merged (a_html_pct args) (p_html_pct <$> profile);
           cd_attach_pct := merged (a_attach_pct args) (p_attach_pct <$> profile);
           cd_subject_len := merged (a_subject_len args) (p_subject_len <$> profile);
           cd_num_emails := merged (a_num_emails args) (p_num_emails <$> profile);
           cd_output_dir := merged (a_output_dir args) (p_output_dir <$> profile);
           cd_to_list := a_to_list args;
           cd_from_list := a_from_list args;
           cd_body_dir := a_body_dir args;
           cd_html_dir := a_html_dir args;
           cd_attach_dir := a_attach_dir args;
           cd_relay_hosts := a_relay_hosts args;
           cd_selection_mode := a_selection_mode args;
           cd_max_attachments := a_max_attachments args;
           cd_seed := a_seed args;
           cd_verbose := a_verbose args;
           cd_dates := date_keys |} in
      match cd_output_dir config with
      | Some _ => Loaded config
      | None => LoadKeyError (lit "output_dir")
      end
    end
  end.

End CommandLine.

(** The decimal digits of ASCII. *)
Definition ascii_digit_value (c : N) : option Z :=
  if ((48 <=? c) && (c <=? 57))%N then Some (Z.of_N c - 48) else None.

(** ** A concrete generator

    A linear congruential generator over [Z], used to run the engine on
    concrete inputs. *)
Module Lcg.

Definition step (g : Z) : Z := (g * 6364136223846793005 + 1442695040888963407) mod 2 ^ 64.

Definition bits (g : Z) : Z := g / 2 ^ 11.

Definition to_float (g : Z) : float :=
  PrimFloat.div (PrimFloat.of_uint63 (Uint63.of_Z (bits g)))
                (PrimFloat.of_uint63 (Uint63.of_Z (2 ^ 53))).

Definition below (n : Z) (g : Z) : Z * Z := (bits g mod n, step g).

#[global] Instance gen : RandomGen Z := {|
  rg_seed := fun s => step (Z.abs s);
  rg_random := fun g => (to_float g, step g);
  rg_randbelow := below;
  rg_getrandbits := fun k g => (g mod 2 ^ k, step g);
  rg_sample := fun A population k g => (firstn (Z.to_nat k) population, step g);
  rg_randbelow_range := fun n g Hn => Z.mod_pos_bound (bits g) n Hn
|}.

End Lcg.

(** ** Concrete inputs

    A small host (one recipient, one sender, two relay hosts, one text body,
    one attachment that cannot be read), two processes that differ in their
    process id and clock, and a configuration of three messages. *)
Module Demo.

Definition host : Host := {|
  file_lines := fun path =>
    if str_eqb path (lit "to.txt") then [lit "bob@example.org"]
    else if str_eqb path (lit "from.txt") then [lit " alice@example.com "; lit ""]
    else [lit "mx1.example.net"; lit "mx2.example.net"];
  list_text_files := fun _ => [lit "bodies/hello.txt"];
  list_html_files := fun _ => [];
  list_any_files := fun _ => [lit "files/report.pdf"];
  read_text := fun _ => Some (lit "Hello world");
  read_bytes := fun _ => None;
  guess_type := fun _ => Some (lit "application/pdf");
  formatdate := fun ts _ => str_of_Z ts;
  micros_of_seconds := fun _ => 0;
  open_for_write := fun _ _ => true;
  local_utcoffset := 0
|}.

Definition proc_a : Process :=
  {| clock := fun k => 1700000000000000 + Z.of_nat k; getpid := 4242 |}.


Definition midnight (ord : Z) : datetime :=
  {| dt_ordinal := ord; dt_hour := 0; dt_minute := 0; dt_second := 0;
     dt_microsecond := 0; dt_tzinfo := utc |}.

Definition end_of_day (ord : Z) : datetime :=
  {| dt_ordinal := ord; dt_hour := 23; dt_minute := 59; dt_second := 59;
     dt_microsecond := 0; dt_tzinfo := utc |}.

Definition at_hour (ord h : Z) : datetime :=
  {| dt_ordinal := ord; dt_hour := h; dt_minute := 0; dt_second := 0;
     dt_microsecond := 0; dt_tzinfo := utc |}.

Definition config : Config := {|
  seed := Some 7;
  to_list := lit "to.txt";
  from_list := lit "from.txt";
  relay_hosts_file := lit "relays.txt";
  body_dir := lit "bodies";
  html_dir := lit "html";
  attach_dir := lit "files";
  output_dir := lit "output_emails";
  selection_mode := lit "linear";
  num_emails := 3;
  html_pct := 0;
  attach_pct := 25;
  subject_len := 50;
  max_attachments := 4;
  date_start := Some (midnight 738886);
  date_end := Some (end_of_day 738890);
  business_start_min := Some 540;
  business_end_min := Some 1020;
  business_bias := Some 100
|}.

Definition world0 : @World Z :=
  {| w_rng := 0; w_tick := 0; w_written := [] |}.

Definition relays : list pystr := [lit "mx1.example.net"; lit "mx2.example.net"].

(** A body of 200 characters that starts with a line feed. *)
Definition body200 : pystr := LF :: repeat 97%N 199.

End Demo.

(** More concrete inputs: a host whose list files are empty, a host whose
    writer fails at the second message, and a command line. *)
Module DemoCli.

Definition with_lines (lines : pystr -> list pystr) (h : Host) : Host :=
  {| file_lines := lines;
     list_text_files := list_text_files h;
     list_html_files := list_html_files h;
     list_any_files := list_any_files h;
     read_text := read_text h;
     read_bytes := read_bytes h;
     guess_type := guess_type h;
     formatdate := formatdate h;
     micros_of_seconds := micros_of_seconds h;
     open_for_write := open_for_write h;
     local_utcoffset := local_utcoffset h |}.


Definition host_no_lists : Host := with_lines (fun _ => [lit "  "]) Demo.host.


Definition strptime_ymd (s : pystr) : option Z :=
  if str_eqb s (lit "2024-01-01") then Some 738886
  else if str_eqb s (lit "2024-01-05") then Some 738890
  else None.

Definition args : Args := {|
  a_profile := Some (lit "marketing");
  a_to_list := lit "to.txt";
  a_from_list := lit "from.txt";
  a_body_dir := lit "bodies";
  a_html_dir := lit "html";
  a_attach_dir := lit "files";
  a_relay_hosts := lit "relays.txt";
  a_html_pct := Some 10;
  a_attach_pct := None;
  a_subject_len := None;
  a_num_emails := Some 3;
  a_output_dir := None;
  a_selection_mode := lit "linear";
  a_max_attachments := Some 4;
  a_seed := Some 7;
  a_date_start := Some (lit "2024-01-01");
  a_date_end := Some (lit "2024-01-05");
  a_business_hours := lit " 09:00-17:30 ";
  a_business_bias := 70;
  a_verbose := false
|}.

Definition linear_selector : Selector :=
  {| mode := lit "linear"; _idx := {[ KEY_ATTACH := 1 ]} |}.

End DemoCli.

(** ** Properties *)

Section Properties.

Context {G : Type} `{RandomGen G}.
Variable host : Host.
Variable proc : Process.

(** C2: with a cap below every count of the distribution (such as [0]) the
    filtered list is empty, and [weighted_choice] raises [ValueError] at the
    unpacking of [zip()]; it does not reach [return 1]. *)
Theorem weighted_choice_empty_filter_raises :
  forall (max_cap : Z) (g : G),
    max_cap < 1 ->
    weighted_choice ATTACH_COUNT_DIST max_cap g =
      (Raise (ValueError "not enough values to unpack (expected 2, got 0)"), g).
Proof.
  intros max_cap g Hcap.
  unfold weighted_choice, ATTACH_COUNT_DIST. simpl.
  repeat match goal with
         | |- context [?a <=? max_cap] =>
           let E := fresh "E" in
           destruct (Z.leb_spec a max_cap) as [E|E]; [lia|]
         end.
  reflexivity.
Qed.

(** *** Draws *)

Lemma randbelow_spec (n : Z) (g : G) :
  0 < n ->
  exists r g', randbelow n g = (Ok r, g') /\ 0 <= r < n.
Proof.
  intros Hn. unfold randbelow.
  pose proof (rg_randbelow_range n g Hn) as Hr.
  destruct (rg_randbelow n g) as [r g']. simpl in Hr. eauto.
Qed.

Lemma randint_spec (a b : Z) (g : G) :
  a <= b ->
  exists r g', randint a b g = (Ok r, g') /\ a <= r <= b.
Proof.
  intros Hab. unfold randint.
  destruct (Z.ltb_spec 0 (b + 1 - a)) as [Hpos|]; [|lia].
  destruct (randbelow_spec (b + 1 - a) g Hpos) as (r & g' & Hr & Hrange).
  exists (a + r), g'. unfold bind, ret. rewrite Hr. split; [reflexivity|lia].
Qed.

Lemma choice_spec {A} (items : list A) (g : G) :
  items <> [] ->
  exists x g', choice items g = (Ok x, g') /\ x ∈ items.
Proof.
  intros Hne. unfold choice.
  destruct items as [|a l] eqn:E; [congruence|]. rewrite <- E in *.
  assert (Hlen : 0 < Z.of_nat (length items)) by (subst items; simpl; lia).
  destruct (randbelow_spec _ g Hlen) as (r & g' & Hr & Hrange).
  unfold bind. rewrite Hr.
  destruct (lookup_lt_is_Some_2 items (Z.to_nat r)) as [x Hx]; [lia|].
  rewrite Hx. exists x, g'. split; [reflexivity|].
  apply list_elem_of_lookup. eauto.
Qed.

(** *** Selector *)

Lemma choose_empty {A} (self : Selector) (key : Z) (g : G) :
  choose self key (@nil A) g = (Raise (ValueError "Selection list is empty."), g).
Proof. reflexivity. Qed.

Lemma choose_random {A} (self : Selector) (key : Z) (items : list A) (g : G) :
  items <> [] ->
  str_eqb (mode self) (lit "random") = true ->
  exists x g', choose self key items g = (Ok (x, self), g') /\ x ∈ items.
Proof.
  intros Hne Hmode. unfold choose. rewrite Hmode.
  destruct (choice_spec items g Hne) as (x & g' & Hc & Hin).
  destruct items; [congruence|].
  unfold bind, ret. rewrite Hc. eauto.
Qed.

Lemma choose_linear {A} (self : Selector) (key : Z) (items : list A) (g : G) :
  items <> [] ->
  str_eqb (mode self) (lit "random") = false ->
  exists x,
    items !! Z.to_nat (cursor self key mod Z.of_nat (length items)) = Some x /\
    choose self key items g =
      (Ok (x, {| mode := mode self;
                 _idx := <[key := (cursor self key + 1) mod Z.of_nat (length items)]>
                           (_idx self) |}), g).
Proof.
  intros Hne Hmode. unfold choose, cursor. rewrite Hmode.
  assert (Hlen : 0 < Z.of_nat (length items)) by (destruct items; simpl; [congruence|lia]).
  pose proof (Z.mod_pos_bound (default 0 (_idx self !! key)) _ Hlen) as Hb.
  destruct (lookup_lt_is_Some_2 items
              (Z.to_nat (default 0 (_idx self !! key) mod Z.of_nat (length items))))
    as [x Hx]; [lia|].
  exists x. split; [exact Hx|].
  destruct items; [congruence|]. rewrite Hx. reflexivity.
Qed.

(** [count] linear calls from cursor [c] return the items at positions
    [c, c+1, ...] taken modulo the length, leave the generator alone and
    touch no other key. *)
Lemma choose_times_linear {A} (items : list A) (key : Z) :
  items <> [] ->
  forall (count : nat) (self : Selector) (g : G),
    str_eqb (mode self) (lit "random") = false ->
    exists xs self',
      choose_times self key items count g = (Ok (xs, self'), g) /\
      length xs = count /\
      (forall j : nat, (j < count)%nat ->
         xs !! j = items !! Z.to_nat ((cursor self key + Z.of_nat j)
                                        mod Z.of_nat (length items))) /\
      mode self' = mode self /\
      (forall key', key' <> key -> _idx self' !! key' = _idx self !! key') /\
      ((0 < count)%nat ->
       cursor self' key = (cursor self key + Z.of_nat count) mod Z.of_nat (length items)).
Proof.
  intros Hne. induction count as [|n IH]; intros self g Hmode.
  - exists [], self. simpl. repeat split; try reflexivity; intros; lia.
  - destruct (choose_linear self key items g Hne Hmode) as (x & Hx & Hc).
    set (self1 := {| mode := mode self;
                     _idx := <[key := (cursor self key + 1) mod Z.of_nat (length items)]>
                               (_idx self) |}) in *.
    destruct (IH self1 g Hmode) as (xs & self' & Hrun & Hlen & Hlook & Hm & Hother & Hcur).
    assert (Hc1 : cursor self1 key = (cursor self key + 1) mod Z.of_nat (length items)).
    { unfold cursor, self1. simpl. rewrite lookup_insert_eq. reflexivity. }
    exists (x :: xs), self'. simpl. unfold bind. rewrite Hc. simpl. rewrite Hrun. simpl.
    unfold ret. repeat split.
    + simpl. lia.
    + intros [|j] Hj; simpl.
      * rewrite Z.add_0_r. symmetry. exact Hx.
      * rewrite Hlook by lia. rewrite Hc1.
        rewrite Zplus_mod_idemp_l. f_equal. f_equal. f_equal. lia.
    + exact Hm.
    + intros key' Hk. rewrite Hother by exact Hk. unfold self1. simpl.
      rewrite lookup_insert_ne by congruence. reflexivity.
    + intros _. destruct n as [|n'].
      * simpl in Hrun. unfold ret in Hrun. inversion Hrun; subst self'.
        rewrite Hc1. reflexivity.
      * rewrite Hcur by lia. rewrite Hc1.
        rewrite Zplus_mod_idemp_l. f_equal. lia.
Qed.

Lemma choose_ok {A} (self : Selector) (key : Z) (items : list A) (g : G) :
  items <> [] ->
  exists x self' g', choose self key items g = (Ok (x, self'), g') /\ x ∈ items.
Proof.
  intros Hne. destruct (str_eqb (mode self) (lit "random")) eqn:Hmode.
  - destruct (choose_random self key items g Hne Hmode) as (x & g' & Hc & Hin). eauto.
  - destruct (choose_linear self key items g Hne Hmode) as (x & Hx & Hc).
    eexists x, _, g. split; [exact Hc|]. apply list_elem_of_lookup. eauto.
Qed.

(** What a call returns depends on the selector only through its mode and
    the cursor of the key it is called with. *)
Lemma choose_value_cursor {A} (s1 s2 : Selector) (key : Z) (items : list A) (g : G) :
  mode s1 = mode s2 ->
  _idx s1 !! key = _idx s2 !! key ->
  outcome_map fst (fst (choose s1 key items g)) =
  outcome_map fst (fst (choose s2 key items g)).
Proof.
  intros Hm Hi. unfold choose. rewrite Hm, Hi.
  destruct items as [|a l]; [reflexivity|].
  destruct (str_eqb (mode s2) (lit "random")).
  - unfold bind, ret. destruct (choice (a :: l) g) as [[x|e] g']; reflexivity.
  - destruct ((a :: l) !! _); reflexivity.
Qed.

(** C8: [choose] raises exactly when the item list is empty, whatever the
    mode; the exception is the [ValueError] of the guard, and on a non-empty
    list the call returns one of the items. *)
Theorem choose_fails_iff_empty :
  forall (A : Type) (self : Selector) (key : Z) (items : list A) (g : G),
    (is_ok (fst (choose self key items g)) = false <-> items = []) /\
    (items = [] ->
     choose self key items g = (Raise (ValueError "Selection list is empty."), g)) /\
    (items <> [] ->
     exists x self' g', choose self key items g = (Ok (x, self'), g') /\ x ∈ items).
Proof.
  intros A self key items g.
  pose proof (choose_ok self key items g) as Hgood.
  split; [|split].
  - split.
    + intros Hfail. destruct items as [|a l]; [reflexivity|].
      destruct Hgood as (x & self' & g' & Hc & _); [congruence|].
      rewrite Hc in Hfail. discriminate.
    + intros ->. reflexivity.
  - intros ->. apply choose_empty.
  - exact Hgood.
Qed.

(** C3: in linear mode, with the cursor of [key] at 0, [K = len(items)]
    calls return the items once each in list order, the next call returns
    the first item again, and the calls leave the cursor of every other key,
    hence what a call with another key returns, as it was. *)
Theorem linear_choose_cycles :
  forall (A : Type) (self : Selector) (key : Z) (items : list A) (g : G),
    str_eqb (mode self) (lit "random") = false ->
    items <> [] ->
    cursor self key = 0 ->
    exists selfK x self',
      choose_times self key items (length items) g = (Ok (items, selfK), g) /\
      choose selfK key items g = (Ok (x, self'), g) /\
      head items = Some x /\
      (forall key', key' <> key ->
         _idx selfK !! key' = _idx self !! key' /\
         _idx self' !! key' = _idx self !! key') /\
      (forall (B : Type) (key' : Z) (items' : list B) (g' : G), key' <> key ->
         outcome_map fst (fst (choose self' key' items' g')) =
         outcome_map fst (fst (choose self key' items' g'))).
Proof.
  intros A self key items g Hmode Hne Hcur.
  assert (Hlen : 0 < Z.of_nat (length items)) by (destruct items; simpl; [congruence|lia]).
  destruct (choose_times_linear items key Hne (length items) self g Hmode)
    as (xs & selfK & Hrun & Hlenxs & Hlook & Hm & Hother & HcurK).
  assert (Hxs : xs = items).
  { apply list_eq. intros j. destruct (Nat.lt_ge_cases j (length items)) as [Hj|Hj].
    - rewrite Hlook by exact Hj. rewrite Hcur, Z.add_0_l.
      rewrite Z.mod_small by lia. rewrite Nat2Z.id. reflexivity.
    - rewrite !lookup_ge_None_2 by lia. reflexivity. }
  subst xs.
  assert (HmK : str_eqb (mode selfK) (lit "random") = false) by (rewrite Hm; exact Hmode).
  destruct (choose_linear selfK key items g Hne HmK) as (x & Hx & Hc).
  rewrite HcurK in Hx by lia. rewrite Hcur, Z.add_0_l, Z_mod_same_full in Hx.
  rewrite Zmod_0_l in Hx. simpl in Hx.
  eexists selfK, x, _. split; [exact Hrun|]. split; [exact Hc|].
  split; [destruct items; simpl in *; congruence|].
  assert (Hidx : forall key', key' <> key ->
     _idx selfK !! key' = _idx self !! key' /\
     <[key := (cursor selfK key + 1) mod Z.of_nat (length items)]> (_idx selfK) !! key'
       = _idx self !! key').
  { intros key' Hk. split; [apply Hother; exact Hk|].
    rewrite lookup_insert_ne by congruence. apply Hother; exact Hk. }
  split; [exact Hidx|].
  intros B key' items' g' Hk. apply choose_value_cursor; simpl.
  - exact Hm.
  - apply Hidx; exact Hk.
Qed.

(** *** Temporal model *)

Lemma datetime_new_ok (ord m s : Z) (tz : option Z) :
  0 <= m < 1440 -> 0 <= s <= 59 ->
  datetime_new ord (m / 60) (m mod 60) s tz =
    Ok {| dt_ordinal := ord; dt_hour := m / 60; dt_minute := m mod 60;
          dt_second := s; dt_microsecond := 0; dt_tzinfo := tz |}.
Proof.
  intros Hm Hs. unfold datetime_new.
  assert (0 <= m / 60 <= 23).
  { split; [apply Z.div_pos; lia|]. apply Z.lt_succ_r, Z.div_lt_upper_bound; lia. }
  pose proof (Z.mod_pos_bound m 60 ltac:(lia)).
  repeat match goal with
         | |- context [?a <=? ?b] => destruct (Z.leb_spec a b); [|lia]
         end.
  reflexivity.
Qed.

Lemma minute_of_day_split (ord m s us : Z) (tz : option Z) :
  minute_of_day {| dt_ordinal := ord; dt_hour := m / 60; dt_minute := m mod 60;
                   dt_second := s; dt_microsecond := us; dt_tzinfo := tz |} = m.
Proof. unfold minute_of_day. simpl. pose proof (Z_div_mod_eq_full m 60). lia. Qed.

(** C7 (amended): with bias 100 and the window 540..1020 the sampler draws a
    candidate on a day of the range whose minute of day lies in [540, 1020),
    and returns it unless it falls outside [start, end]: then it returns
    [start] (candidate before it) or [end] (candidate after it), without
    drawing again.  When [start] is a midnight and [end] a 23:59:59 of UTC,
    as the command line builds them, the candidate is returned as it is. *)
Theorem weighted_sampler_full_bias :
  forall (start end_ : datetime) (g : G),
    is_Some (dt_tzinfo start) ->
    is_Some (dt_tzinfo end_) ->
    dt_ordinal start <= dt_ordinal end_ ->
    exists (day m sec : Z) (r : datetime) (g' : G),
      let cand := {| dt_ordinal := day; dt_hour := m / 60; dt_minute := m mod 60;
                     dt_second := sec; dt_microsecond := 0; dt_tzinfo := utc |} in
      random_date_weighted start end_ 540 1020 100 g = (Ok r, g') /\
      dt_ordinal start <= day <= dt_ordinal end_ /\
      540 <= minute_of_day cand < 1020 /\
      0 <= sec <= 59 /\
      r = (if dt_ltb cand start then start
           else if dt_ltb end_ cand then end_ else cand) /\
      (dt_hour start = 0 -> dt_minute start = 0 -> dt_second start = 0 ->
       dt_microsecond start = 0 -> dt_tzinfo start = utc ->
       dt_hour end_ = 23 -> dt_minute end_ = 59 -> dt_second end_ = 59 ->
       0 <= dt_microsecond end_ -> dt_tzinfo end_ = utc ->
       r = cand).
Proof.
  intros start end_ g [zs Hzs] [ze Hze] Hord.
  unfold random_date_weighted. rewrite Hzs, Hze.
  destruct (Z.ltb_spec (dt_ordinal end_) (dt_ordinal start)) as [|_]; [lia|].
  destruct (randint_spec 0 (dt_ordinal end_ - dt_ordinal start) g ltac:(lia))
    as (off & g1 & Hoff & Roff).
  destruct (randint_spec 1 100 g1 ltac:(lia)) as (b & g2 & Hb & Rb).
  destruct (randint_spec 540 (1020 - 1) g2 ltac:(lia)) as (m & g3 & Hm & Rm).
  destruct (randint_spec 0 59 g3 ltac:(lia)) as (sec & g4 & Hsec & Rsec).
  exists (dt_ordinal start + off), m, sec.
  unfold bind at 1. rewrite Hoff.
  unfold bind at 1. rewrite Hb.
  destruct (Z.leb_spec b 100) as [_|]; [|lia].
  change (true && (540 <? 1020)) with true. cbv iota.
  unfold bind at 1. rewrite Hm.
  unfold bind at 1. rewrite Hsec.
  unfold bind at 1. unfold lift_outcome.
  rewrite datetime_new_ok by lia.
  set (cand := {| dt_ordinal := dt_ordinal start + off; dt_hour := m / 60;
                  dt_minute := m mod 60; dt_second := sec;
                  dt_microsecond := 0; dt_tzinfo := utc |}).
  exists (if dt_ltb cand start then start
          else if dt_ltb end_ cand then end_ else cand), g4.
  cbv zeta. fold cand.
  split.
  { destruct (dt_ltb cand start); [reflexivity|].
    destruct (dt_ltb end_ cand); reflexivity. }
  split; [lia|].
  split; [unfold cand; rewrite minute_of_day_split; lia|].
  split; [lia|].
  split; [reflexivity|].
  intros Hh Hmi Hs Hus Htz Hh' Hmi' Hs' Hus' Htz'.
  rewrite <- Hzs in Htz. rewrite <- Hze in Htz'.
  pose proof (minute_of_day_split (dt_ordinal start + off) m sec 0 utc) as Hmod.
  fold cand in Hmod. unfold minute_of_day in Hmod.
  assert (Hlo : dt_ltb cand start = false).
  { unfold dt_ltb. apply Z.ltb_ge. unfold utc_micros, local_seconds.
    rewrite Hh, Hmi, Hs, Hus, Htz. unfold cand in *. simpl in *. lia. }
  assert (Hhi : dt_ltb end_ cand = false).
  { unfold dt_ltb. apply Z.ltb_ge. unfold utc_micros, local_seconds.
    rewrite Hh', Hmi', Hs', Htz'. unfold cand in *. simpl in *. lia. }
  rewrite Hlo, Hhi. reflexivity.
Qed.

(** *** Date arithmetic *)

Lemma local_micros_of_local_micros (us : Z) (tz : option Z) :
  local_micros (of_local_micros us tz) = us.
Proof.
  unfold local_micros, local_seconds, of_local_micros. simpl.
  set (secs := us / 1000000). set (sod := secs mod 86400).
  pose proof (Z_div_mod_eq_full us 1000000).
  pose proof (Z_div_mod_eq_full secs 86400).
  pose proof (Z_div_mod_eq_full sod 3600).
  pose proof (Z_div_mod_eq_full (sod mod 3600) 60).
  assert (Hmm : (sod mod 3600) mod 60 = sod mod 60).
  { apply Z.mod_mod_divide. exists 60. reflexivity. }
  fold secs in H0. fold sod in H1. lia.
Qed.

Lemma utc_micros_local (d : datetime) :
  utc_micros d = local_micros d - default 0 (dt_tzinfo d) * 1000000.
Proof. unfold utc_micros, local_micros. lia. Qed.

Lemma utc_micros_add (d : datetime) (us : Z) :
  utc_micros (dt_add_micros d us) = utc_micros d + us.
Proof.
  rewrite !utc_micros_local. unfold dt_add_micros.
  rewrite local_micros_of_local_micros. simpl. lia.
Qed.

Lemma utc_micros_add_seconds (d : datetime) (s : Z) :
  utc_micros (dt_add_seconds d s) = utc_micros d + s * 1000000.
Proof. apply utc_micros_add. Qed.

Lemma utc_micros_sub_minutes (d : datetime) (m : Z) :
  utc_micros (dt_sub_minutes d m) = utc_micros d - m * 60 * 1000000.
Proof. unfold dt_sub_minutes. rewrite utc_micros_add. lia. Qed.

(** *** Relay chain *)

Lemma draw_ok {A} (c : @Rand G A) (w : World) (a : A) (g' : G) :
  c (w_rng w) = (Ok a, g') -> draw c w = (Ok a, with_rng g' w).
Proof. intros Hc. unfold draw. rewrite Hc. reflexivity. Qed.

Lemma bind_draw_ok {A B} (c : @Rand G A) (k : A -> @Run G B) (w : World) (a : A) (g' : G) :
  c (w_rng w) = (Ok a, g') -> bind_ (draw c) k w = k a (with_rng g' w).
Proof. intros Hc. unfold bind_. rewrite (draw_ok _ _ _ _ Hc). reflexivity. Qed.

Lemma bind_ret_ {A B} (a : A) (k : A -> @Run G B) (w : @World G) :
  bind_ (ret_ a) k w = k a w.
Proof. reflexivity. Qed.

Lemma bind_bind_ {A B C} (c : @Run G A) (k : A -> @Run G B) (k' : B -> @Run G C) (w : @World G) :
  bind_ (bind_ c k) k' w = bind_ c (fun a => bind_ (k a) k') w.
Proof. unfold bind_. destruct (c w) as [[a|e] w']; reflexivity. Qed.

Lemma bind_read_clock {B} (k : Z -> @Run G B) (w : @World G) :
  bind_ (read_clock proc) k w =
  k (clock proc (w_tick w))
    {| w_rng := w_rng w; w_tick := S (w_tick w); w_written := w_written w |}.
Proof. reflexivity. Qed.

Lemma choice_times_spec {A} (items : list A) :
  items <> [] ->
  forall (n : nat) (g : G),
    exists xs g', choice_times items n g = (Ok xs, g') /\
                  length xs = n /\ (forall x, x ∈ xs -> x ∈ items).
Proof.
  intros Hne. induction n as [|n IH]; intros g.
  - exists [], g. repeat split. intros x Hx. inversion Hx.
  - destruct (choice_spec items g Hne) as (x & g1 & Hx & Hin).
    destruct (IH g1) as (xs & g2 & Hxs & Hlen & Hall).
    exists (x :: xs), g2. simpl. unfold bind. rewrite Hx, Hxs.
    repeat split; [simpl; lia|].
    intros y Hy. apply elem_of_cons in Hy as [->|Hy]; auto.
Qed.

Lemma gen_hop_times_spec (n : nat) :
  forall (t : datetime) (g : G),
    exists ts g', gen_hop_times t n g = (Ok ts, g') /\
                  length ts = n /\ hop_steps t ts.
Proof.
  induction n as [|n IH]; intros t g.
  - exists [], g. repeat split.
  - destruct (randint_spec 30 90 g ltac:(lia)) as (s & g1 & Hs & Rs).
    destruct (IH (dt_add_seconds t s) g1) as (ts & g2 & Hts & Hlen & Hsteps).
    exists (dt_add_seconds t s :: ts), g2. simpl. unfold bind. rewrite Hs, Hts.
    repeat split; [simpl; lia| |exact Hsteps].
    exists s. split; [exact Rs|reflexivity].
Qed.

Lemma hop_steps_bounds (ts : list datetime) :
  forall (t : datetime) (i : nat) (ti : datetime),
    hop_steps t ts -> ts !! i = Some ti ->
    utc_micros t + 30000000 * Z.of_nat (S i) <= utc_micros ti
      <= utc_micros t + 90000000 * Z.of_nat (S i).
Proof.
  induction ts as [|t1 rest IH]; intros t i ti Hst Hi; [inversion Hi|].
  destruct Hst as [(s & Rs & ->) Hrest].
  destruct i as [|i]; simpl in Hi.
  - inversion Hi; subst ti. rewrite utc_micros_add_seconds. lia.
  - specialize (IH _ _ _ Hrest Hi). rewrite utc_micros_add_seconds in IH. lia.
Qed.

Lemma hop_steps_gap (ts : list datetime) :
  forall (t : datetime) (i : nat) (a b : datetime),
    hop_steps t ts -> ts !! i = Some a -> ts !! S i = Some b ->
    30000000 <= utc_micros b - utc_micros a <= 90000000.
Proof.
  induction ts as [|t1 rest IH]; intros t i a b Hst Ha Hb; [inversion Ha|].
  destruct Hst as [_ Hrest].
  destruct i as [|i]; simpl in Ha, Hb.
  - inversion Ha; subst a. destruct rest as [|t2 rest']; [inversion Hb|].
    inversion Hb; subst b. destruct Hrest as [(s & Rs & ->) _].
    rewrite utc_micros_add_seconds. lia.
  - eapply IH; eauto.
Qed.

Lemma gen_hop_lines_spec (chain : list pystr) (hop_times : list datetime) :
  forall (idxs : list nat) (g : G),
    (forall i, i ∈ idxs -> (i < length hop_times)%nat) ->
    length chain = S (length hop_times) ->
    exists lines g',
      gen_hop_lines host chain hop_times idxs g = (Ok lines, g') /\
      length lines = length idxs /\
      (forall k i, idxs !! k = Some i ->
         exists src dst id t,
           chain !! i = Some src /\ chain !! S i = Some dst /\
           hop_times !! i = Some t /\ 0 <= id < 16 ^ 8 /\
           lines !! k = Some (received_line host src dst id t)).
Proof.
  induction idxs as [|i rest IH]; intros g Hidx Hlen.
  - exists [], g. repeat split. intros k i Hk. inversion Hk.
  - assert (Hi : (i < length hop_times)%nat) by (apply Hidx; left).
    destruct (lookup_lt_is_Some_2 chain i ltac:(lia)) as [src Hsrc].
    destruct (lookup_lt_is_Some_2 chain (S i) ltac:(lia)) as [dst Hdst].
    destruct (lookup_lt_is_Some_2 hop_times i Hi) as [t Ht].
    destruct (randbelow_spec (16 ^ 8) g ltac:(lia)) as (id & g1 & Hid & Rid).
    destruct (IH g1) as (lines & g2 & Hl & Hlenl & Hall);
      [intros j Hj; apply Hidx; right; exact Hj|exact Hlen|].
    exists (received_line host src dst id t :: lines), g2.
    simpl. rewrite Hsrc, Hdst, Ht. unfold bind, randrange.
    change (0 <? 16 ^ 8) with true. cbv iota. rewrite Hid, Hl.
    repeat split; [simpl; lia|].
    intros [|k] j Hk; simpl in Hk.
    + inversion Hk; subst j. exists src, dst, id, t. auto.
    + apply Hall. exact Hk.
Qed.

Lemma gen_hop_schedule_spec (relay_hosts : list pystr)
    (base_date : option datetime) (w : World) :
  relay_hosts <> [] ->
  exists hops chain m hop_times g',
    gen_hop_schedule proc relay_hosts 1 3 base_date w =
      (Ok (hops, chain, hop_times),
       {| w_rng := g'; w_tick := chain_tick base_date w;
          w_written := w_written w |}) /\
    1 <= hops <= 3 /\
    length chain = S (Z.to_nat hops) /\
    (forall h, h ∈ chain -> h ∈ relay_hosts) /\
    5 <= m <= 15 /\
    length hop_times = Z.to_nat hops /\
    hop_steps (dt_sub_minutes (chain_anchor proc base_date w) m) hop_times.
Proof.
  intros Hne. destruct w as [g0 tick out].
  destruct (randint_spec 1 3 g0 ltac:(lia)) as (hops & g1 & Hh & Rh).
  destruct (choice_times_spec relay_hosts Hne (Z.to_nat (hops + 1)) g1)
    as (chain & g2 & Hc & Hclen & Hcin).
  destruct (randint_spec 5 15 g2 ltac:(lia)) as (m & g3 & Hm & Rm).
  destruct (gen_hop_times_spec (Z.to_nat hops)
              (dt_sub_minutes (chain_anchor proc base_date
                 {| w_rng := g0; w_tick := tick; w_written := out |}) m) g3)
    as (ts & g4 & Hts & Htlen & Hsteps).
  exists hops, chain, m, ts, g4.
  split; [|repeat split; try assumption; try lia].
  unfold gen_hop_schedule.
  erewrite bind_draw_ok by (simpl; eassumption).
  erewrite bind_draw_ok by (simpl; eassumption).
  destruct base_date as [d|]; simpl in *.
  - rewrite bind_ret_.
    erewrite bind_draw_ok by (simpl; eassumption).
    erewrite bind_draw_ok by (simpl; eassumption).
    reflexivity.
  - rewrite bind_bind_, bind_read_clock, bind_ret_.
    erewrite bind_draw_ok by (simpl; eassumption).
    erewrite bind_draw_ok by (simpl; eassumption).
    reflexivity.
Qed.

Lemma gen_received_headers_chain (relay_hosts : list pystr)
    (base_date : option datetime) (w : World) :
  relay_hosts <> [] ->
  exists hops chain m hop_times g1 lines g2,
    gen_hop_schedule proc relay_hosts 1 3 base_date w =
      (Ok (hops, chain, hop_times),
       {| w_rng := g1; w_tick := chain_tick base_date w;
          w_written := w_written w |}) /\
    gen_received_headers host proc relay_hosts 1 3 base_date w =
      (Ok lines,
       {| w_rng := g2; w_tick := chain_tick base_date w;
          w_written := w_written w |}) /\
    1 <= hops <= 3 /\
    length chain = S (Z.to_nat hops) /\
    (forall h, h ∈ chain -> h ∈ relay_hosts) /\
    5 <= m <= 15 /\
    length hop_times = Z.to_nat hops /\
    hop_steps (dt_sub_minutes (chain_anchor proc base_date w) m) hop_times /\
    length lines = Z.to_nat hops /\
    (forall i t, hop_times !! i = Some t ->
       exists src dst id,
         chain !! i = Some src /\ chain !! S i = Some dst /\
         0 <= id < 16 ^ 8 /\
         lines !! i = Some (received_line host src dst id t)).
Proof.
  intros Hne.
  destruct (gen_hop_schedule_spec relay_hosts base_date w Hne)
    as (hops & chain & m & ts & g1 & Hsch & Rh & Hclen & Hcin & Rm & Htlen & Hsteps).
  destruct (gen_hop_lines_spec chain ts (seq 0 (Z.to_nat hops)) g1)
    as (lines & g2 & Hl & Hllen & Hall).
  { intros i Hi. apply elem_of_seq in Hi. lia. }
  { lia. }
  exists hops, chain, m, ts, g1, lines, g2.
  split; [exact Hsch|].
  split.
  { unfold gen_received_headers. destruct relay_hosts as [|h0 hs]; [congruence|].
    unfold bind_ at 1. rewrite Hsch.
    unfold draw. simpl. rewrite Hl. reflexivity. }
  rewrite length_seq in Hllen.
  repeat split; try assumption; try lia.
  intros i t Hi.
  assert (Hlt : (i < Z.to_nat hops)%nat).
  { rewrite <- Htlen. eapply lookup_lt_Some; eauto. }
  destruct (Hall i i) as (src & dst & id & t' & Hsrc & Hdst & Ht' & Rid & Hline).
  { rewrite lookup_seq_lt by exact Hlt. reflexivity. }
  rewrite Hi in Ht'. inversion Ht'; subst t'.
  exists src, dst, id. auto.
Qed.

(** C4: for a non-empty host list and a send time [T] the chain has 1 to 3
    hops; each hop time is 30 to 90 seconds after the previous one, so the
    times increase strictly; every hop time, the last one included, is
    before [T]; and line [i] of the result renders hop [i], so the lines
    run from the oldest hop to the newest. *)
Theorem relay_chain_shape :
  forall (relay_hosts : list pystr) (T : datetime) (w : World),
    relay_hosts <> [] ->
    exists (hops : Z) (chain : list pystr) (hop_times : list datetime)
           (lines : list pystr) (w1 w2 : World),
      gen_hop_schedule proc relay_hosts 1 3 (Some T) w =
        (Ok (hops, chain, hop_times), w1) /\
      gen_received_headers host proc relay_hosts 1 3 (Some T) w = (Ok lines, w2) /\
      1 <= hops <= 3 /\
      length hop_times = Z.to_nat hops /\
      length lines = Z.to_nat hops /\
      length chain = S (Z.to_nat hops) /\
      (forall h, h ∈ chain -> h ∈ relay_hosts) /\
      (forall i a b, hop_times !! i = Some a -> hop_times !! S i = Some b ->
         utc_micros a < utc_micros b /\
         30 * 1000000 <= utc_micros b - utc_micros a <= 90 * 1000000) /\
      (forall i t, hop_times !! i = Some t -> utc_micros t < utc_micros T) /\
      (forall i t, hop_times !! i = Some t ->
         exists src dst id,
           chain !! i = Some src /\ chain !! S i = Some dst /\
           lines !! i = Some (received_line host src dst id t)).
Proof.
  intros relay_hosts T w Hne.
  destruct (gen_received_headers_chain relay_hosts (Some T) w Hne)
    as (hops & chain & m & ts & g1 & lines & g2 & Hsch & Hrun & Rh & Hclen & Hcin
        & Rm & Htlen & Hsteps & Hllen & Hlines).
  simpl in Hsteps.
  eexists hops, chain, ts, lines, _, _.
  split; [exact Hsch|]. split; [exact Hrun|].
  do 5 (split; [assumption || lia|]).
  split; [|split].
  - intros i a b Ha Hb.
    pose proof (hop_steps_gap ts _ i a b Hsteps Ha Hb). lia.
  - intros i t Hi.
    pose proof (hop_steps_bounds ts _ i t Hsteps Hi) as Hb.
    rewrite utc_micros_sub_minutes in Hb.
    assert ((i < Z.to_nat hops)%nat) by (rewrite <- Htlen; eapply lookup_lt_Some; eauto).
    lia.
  - intros i t Hi. destruct (Hlines i t Hi) as (src & dst & id & ? & ? & ? & ?).
    exists src, dst, id. auto.
Qed.

(** C5 (amended): the first hop time is the send time [T] minus 5 to 15
    minutes plus the 30 to 90 seconds of the first hop, so [T] minus the
    first hop time lies between 3 min 30 s and 14 min 30 s. *)
Theorem first_hop_offset :
  forall (relay_hosts : list pystr) (T : datetime) (w : World),
    relay_hosts <> [] ->
    exists (hops : Z) (chain : list pystr) (t0 : datetime)
           (rest : list datetime) (w1 : World) (m s : Z),
      gen_hop_schedule proc relay_hosts 1 3 (Some T) w =
        (Ok (hops, chain, t0 :: rest), w1) /\
      5 <= m <= 15 /\ 30 <= s <= 90 /\
      t0 = dt_add_seconds (dt_sub_minutes T m) s /\
      utc_micros T - utc_micros t0 = (m * 60 - s) * 1000000 /\
      210 * 1000000 <= utc_micros T - utc_micros t0 <= 870 * 1000000.
Proof.
  intros relay_hosts T w Hne.
  destruct (gen_hop_schedule_spec relay_hosts (Some T) w Hne)
    as (hops & chain & m & ts & g1 & Hsch & Rh & Hclen & Hcin & Rm & Htlen & Hsteps).
  simpl in Hsteps.
  destruct ts as [|t0 rest]; [simpl in Htlen; lia|].
  destruct Hsteps as [(s & Rs & Ht0) _].
  eexists hops, chain, t0, rest, _, m, s.
  split; [exact Hsch|].
  assert (Hd : utc_micros T - utc_micros t0 = (m * 60 - s) * 1000000).
  { rewrite Ht0, utc_micros_add_seconds, utc_micros_sub_minutes. lia. }
  repeat split; try assumption; lia.
Qed.

(** *** Message assembly *)

Lemma bind_ok {A B} (c : @Run G A) (k : A -> @Run G B) (w w' : @World G) (a : A) :
  c w = (Ok a, w') -> bind_ c k w = k a w'.
Proof. intros Hc. unfold bind_. rewrite Hc. reflexivity. Qed.

Lemma gen_received_headers_ok (relay_hosts : list pystr)
    (base_date : option datetime) (w : World) :
  exists lines g1,
    gen_received_headers host proc relay_hosts 1 3 base_date w =
      (Ok lines,
       {| w_rng := g1; w_tick := received_tick relay_hosts base_date w;
          w_written := w_written w |}).
Proof.
  destruct relay_hosts as [|h0 hs] eqn:E.
  - exists [], (w_rng w). destruct w; reflexivity.
  - rewrite <- E.
    destruct (gen_received_headers_chain relay_hosts base_date w)
      as (hops & chain & m & ts & g1 & lines & g2 & _ & Hrun & _);
      [congruence|].
    exists lines, g2. rewrite Hrun. subst relay_hosts. reflexivity.
Qed.

Lemma build_email_spec (from_addr to_addr : pystr) (is_html : bool)
    (subject_len : Z) (text_body : pystr) (html_body : option pystr)
    (attach_paths relay_hosts : list pystr) (msg_date : option datetime)
    (w : World) :
  exists lines g1 r g2,
    let t1 := received_tick relay_hosts msg_date w in
    rg_getrandbits 64 g1 = (r, g2) /\
    gen_received_headers host proc relay_hosts 1 3 msg_date w =
      (Ok lines, {| w_rng := g1; w_tick := t1; w_written := w_written w |}) /\
    build_email host proc from_addr to_addr is_html subject_len text_body
      html_body attach_paths relay_hosts msg_date w =
      (Ok (assemble_message host lines from_addr to_addr
             (msgid_text (Z.quot (clock proc t1) 10000) (getpid proc) r
                (parse_domain_from_email from_addr))
             (date_text host msg_date (clock proc (S t1)))
             is_html subject_len text_body html_body attach_paths),
       {| w_rng := g2;
          w_tick := match msg_date with Some _ => S t1 | None => S (S t1) end;
          w_written := w_written w |}).
Proof.
  destruct (gen_received_headers_ok relay_hosts msg_date w) as (lines & g1 & Hrh).
  destruct (rg_getrandbits 64 g1) as [r g2] eqn:Hbits.
  exists lines, g1, r, g2. cbv zeta. split; [exact Hbits|]. split; [exact Hrh|].
  unfold build_email.
  erewrite bind_ok by exact Hrh.
  unfold make_msgid. rewrite bind_bind_, bind_read_clock.
  rewrite bind_bind_.
  erewrite bind_draw_ok by (unfold getrandbits; simpl; rewrite Hbits; reflexivity).
  rewrite bind_ret_.
  destruct msg_date as [d|].
  - rewrite bind_ret_. reflexivity.
  - rewrite bind_bind_, bind_read_clock, bind_ret_. reflexivity.
Qed.






Lemma split_once_absent (sep : N) (s : pystr) :
  sep ∉ s -> split_once sep s = None.
Proof.
  induction s as [|c r IH]; intros Hno; [reflexivity|].
  simpl. destruct (N.eqb_spec c sep) as [->|Hne].
  - exfalso. apply Hno. left.
  - rewrite IH; [reflexivity|]. intros Hin. apply Hno. right. exact Hin.
Qed.


(** *** Subject *)

Lemma sub_runs_clean (p : N -> bool) (s : pystr) :
  p SPACE = false ->
  forall b, Forall (fun c => p c = false) (sub_runs p s b).
Proof.
  intros Hsp. induction s as [|c r IH]; intros b; simpl; [constructor|].
  destruct (p c) eqn:Hc.
  - destruct b; [apply IH|]. constructor; [exact Hsp|apply IH].
  - constructor; [exact Hc|apply IH].
Qed.

Lemma sub_runs_id (p : N -> bool) (s : pystr) :
  Forall (fun c => p c = false) s -> forall b, sub_runs p s b = s.
Proof.
  induction 1 as [|c r Hc _ IH]; intros b; simpl; [reflexivity|].
  rewrite Hc, IH. reflexivity.
Qed.

Lemma sub_runs_length (p : N -> bool) (s : pystr) :
  forall b, (length (sub_runs p s b) <= length s)%nat.
Proof.
  induction s as [|c r IH]; intros b; simpl; [lia|].
  destruct (p c); [destruct b|]; simpl;
    match goal with |- context [sub_runs p r ?x] => specialize (IH x) end; lia.
Qed.

Lemma lstrip_suffix (s : pystr) : exists pre, s = pre ++ lstrip s.
Proof.
  induction s as [|c r [pre IH]]; [exists []; reflexivity|].
  simpl. destruct (is_space c).
  - exists (c :: pre). simpl. f_equal. exact IH.
  - exists []. reflexivity.
Qed.

Lemma lstrip_Forall (P : N -> Prop) (s : pystr) :
  Forall P s -> Forall P (lstrip s).
Proof.
  intros Hs. destruct (lstrip_suffix s) as [pre Hpre].
  rewrite Hpre in Hs. apply Forall_app in Hs. apply Hs.
Qed.

Lemma lstrip_length (s : pystr) : (length (lstrip s) <= length s)%nat.
Proof.
  destruct (lstrip_suffix s) as [pre Hpre].
  rewrite Hpre at 2. rewrite length_app. lia.
Qed.

Lemma strip_Forall (P : N -> Prop) (s : pystr) :
  Forall P s -> Forall P (strip s).
Proof.
  intros Hs. unfold strip, rstrip.
  apply Forall_rev, lstrip_Forall, Forall_rev, lstrip_Forall, Hs.
Qed.

Lemma strip_length (s : pystr) : (length (strip s) <= length s)%nat.
Proof.
  unfold strip, rstrip. rewrite length_rev.
  pose proof (lstrip_length (rev (lstrip s))) as H1.
  rewrite length_rev in H1. pose proof (lstrip_length s). lia.
Qed.

(** A string that neither starts nor ends with white space is its own
    [strip()]. *)
Lemma strip_id (s : pystr) :
  (forall c, head s = Some c -> is_space c = false) ->
  (forall c, last s = Some c -> is_space c = false) ->
  strip s = s.
Proof.
  intros Hh Hl. unfold strip, rstrip.
  assert (H1 : lstrip s = s).
  { destruct s as [|c r]; [reflexivity|]. simpl. rewrite (Hh c); reflexivity. }
  rewrite H1.
  assert (H2 : lstrip (rev s) = rev s).
  { destruct (rev s) as [|c r] eqn:E; [reflexivity|].
    simpl. rewrite (Hl c); [reflexivity|].
    rewrite <- (rev_involutive s), E. simpl. apply last_snoc. }
  rewrite H2. apply rev_involutive.
Qed.

Lemma sanitize_subject_clean (s : pystr) :
  Forall (fun c => is_newline c = false) (sanitize_subject s).
Proof.
  unfold sanitize_subject. apply strip_Forall, sub_runs_clean. reflexivity.
Qed.

Lemma sanitize_subject_length (s : pystr) :
  (length (sanitize_subject s) <= length s)%nat.
Proof.
  unfold sanitize_subject.
  pose proof (strip_length (sub_runs is_newline s false)).
  pose proof (sub_runs_length is_newline s false). lia.
Qed.

(** C6 (amended): the subject holds no carriage return or line feed and,
    unless it is the fallback, at most [subject_len] characters; it is the
    first [subject_len] characters of the body as they are (so exactly that
    many) when those hold no carriage return or line feed and neither start
    nor end with white space; an empty source gives the fallback
    ["No subject"]. *)
Theorem subject_of_plain_body :
  forall (text_body : pystr) (html_body : option pystr) (subject_len : Z),
    let subject := derive_subject false subject_len text_body html_body in
    let prefix := slice_to subject_len text_body in
    Forall (fun c => is_newline c = false) subject /\
    (0 <= subject_len ->
     (length subject <= Z.to_nat subject_len)%nat \/ subject = lit "No subject") /\
    (forall is_html,
       subject_source is_html text_body html_body = [] ->
       derive_subject is_html subject_len text_body html_body = lit "No subject") /\
    (0 < subject_len <= Z.of_nat (length text_body) ->
     Forall (fun c => is_newline c = false) prefix ->
     (forall c, head prefix = Some c -> is_space c = false) ->
     (forall c, last prefix = Some c -> is_space c = false) ->
     subject = prefix /\ Z.of_nat (length subject) = subject_len).
Proof.
  intros text_body html_body subject_len subject prefix.
  assert (Hsrc : subject_source false text_body html_body = text_body).
  { unfold subject_source. destruct html_body; reflexivity. }
  assert (Hsub : subject =
                 match sanitize_subject prefix with
                 | [] => lit "No subject"
                 | _ => sanitize_subject prefix
                 end).
  { unfold subject, derive_subject. rewrite Hsrc. fold prefix.
    destruct (sanitize_subject prefix); reflexivity. }
  split; [|split; [|split]].
  - rewrite Hsub. pose proof (sanitize_subject_clean prefix) as Hc.
    destruct (sanitize_subject prefix); [|exact Hc].
    vm_compute. repeat constructor.
  - intros Hn. rewrite Hsub.
    pose proof (sanitize_subject_length prefix) as Hl.
    destruct (sanitize_subject prefix) eqn:E; [right; reflexivity|left].
    etransitivity; [exact Hl|]. unfold prefix, slice_to.
    destruct (Z.ltb_spec subject_len 0); [lia|].
    rewrite length_firstn. lia.
  - intros is_html Hempty. unfold derive_subject. rewrite Hempty.
    unfold slice_to. destruct (subject_len <? 0); rewrite firstn_nil; reflexivity.
  - intros Hlen Hclean Hhead Hlast.
    assert (Hplen : Z.of_nat (length prefix) = subject_len).
    { unfold prefix, slice_to. destruct (Z.ltb_spec subject_len 0); [lia|].
      rewrite length_firstn. lia. }
    assert (Hsan : sanitize_subject prefix = prefix).
    { unfold sanitize_subject. rewrite (sub_runs_id _ _ Hclean).
      apply strip_id; assumption. }
    rewrite Hsub, Hsan. destruct prefix; [simpl in Hplen; lia|]. auto.
Qed.

(** *** Totality of the steps of an iteration *)














Lemma elem_of_py_range (a b x : Z) : x ∈ py_range a b -> a <= x < b.
Proof.
  unfold py_range. intros Hx. apply list_elem_of_In, in_map_iff in Hx.
  destruct Hx as (i & <- & Hi). apply in_seq in Hi. lia.
Qed.






(** *** File names *)







(** *** The loop *)





Section Loop.

Variable config : Config.
Variables to_addrs from_addrs relay_hosts text_files html_files attach_files
  : list pystr.
Variables html_probability attach_probability : float.

Hypothesis to_nonempty : to_addrs <> [].
Hypothesis from_nonempty : from_addrs <> [].
Hypothesis body_available : nonempty text_files || nonempty html_files = true.
Hypothesis cap_positive : 1 <= max_attachments config.
Hypothesis dates_valid : valid_dates config = true.
Hypothesis writer_ok :
  forall name, open_for_write host (output_dir config) name = true.



End Loop.


End Properties.

(** ** Two runs on the same seed and inputs *)

Section TwoRuns.

Context {G : Type} `{RandomGen G}.
Variable host : Host.





Variables p1 p2 : Process.






Section Steps.

Variable config : Config.
Variables to_addrs from_addrs relay_hosts text_files html_files attach_files
  : list pystr.
Variables html_probability attach_probability : float.
Hypothesis start_set : is_Some (date_start config).
Hypothesis end_set : is_Some (date_end config).



End Steps.


End TwoRuns.

(** ** The properties on concrete inputs *)

Lemma weighted_choice_empty_filter_raises_witness :
  0 < 1 /\
  weighted_choice ATTACH_COUNT_DIST 0 (0 : Z) =
    (Raise (ValueError "not enough values to unpack (expected 2, got 0)"), 0).
Proof.
  split; [lia|]. apply (weighted_choice_empty_filter_raises 0 (0 : Z)). lia.
Defined.

Lemma linear_choose_cycles_witness :
  exists selfK x self',
    choose_times (Selector_init (lit "linear")) 1 [10; 20; 30] 3 (0 : Z)
      = (Ok ([10; 20; 30], selfK), 0) /\
    choose selfK 1 [10; 20; 30] (0 : Z) = (Ok (x, self'), 0) /\
    x = 10.
Proof.
  destruct (linear_choose_cycles Z (Selector_init (lit "linear")) 1 [10; 20; 30] (0 : Z))
    as (selfK & x & self' & Hrun & Hnext & Hhead & _).
  - vm_compute. reflexivity.
  - discriminate.
  - reflexivity.
  - exists selfK, x, self'. split; [exact Hrun|]. split; [exact Hnext|].
    simpl in Hhead. congruence.
Defined.

Lemma relay_chain_shape_witness :
  exists (hops : Z) (lines : list pystr) (w2 : World),
    gen_received_headers Demo.host Demo.proc_a Demo.relays 1 3
      (Some (Demo.at_hour 738886 12)) Demo.world0 = (Ok lines, w2) /\
    1 <= hops <= 3 /\ length lines = Z.to_nat hops.
Proof.
  destruct (relay_chain_shape Demo.host Demo.proc_a Demo.relays
              (Demo.at_hour 738886 12) Demo.world0)
    as (hops & chain & ts & lines & w1 & w2 & _ & Hrun & Hh & _ & Hl & _).
  - discriminate.
  - exists hops, lines, w2. auto.
Defined.

Lemma first_hop_offset_witness :
  exists (hops : Z) (chain : list pystr) (t0 : datetime) (rest : list datetime)
         (w1 : World),
    gen_hop_schedule Demo.proc_a Demo.relays 1 3
      (Some (Demo.at_hour 738886 12)) Demo.world0
      = (Ok (hops, chain, t0 :: rest), w1) /\
    210 * 1000000 <= utc_micros (Demo.at_hour 738886 12) - utc_micros t0
      <= 870 * 1000000.
Proof.
  destruct (first_hop_offset Demo.proc_a Demo.relays (Demo.at_hour 738886 12)
              Demo.world0)
    as (hops & chain & t0 & rest & w1 & m & s & Hrun & _ & _ & _ & _ & Hb).
  - discriminate.
  - exists hops, chain, t0, rest, w1. auto.
Defined.

Lemma weighted_sampler_full_bias_witness :
  exists (r : datetime) (g' : Z),
    random_date_weighted (Demo.midnight 738886) (Demo.end_of_day 738890)
      540 1020 100 (0 : Z) = (Ok r, g') /\
    540 <= minute_of_day r < 1020.
Proof.
  destruct (weighted_sampler_full_bias (Demo.midnight 738886)
              (Demo.end_of_day 738890) (0 : Z))
    as (day & m & sec & r & g' & Hrun & _ & Hwin & _ & _ & Hsame).
  - exists 0. reflexivity.
  - exists 0. reflexivity.
  - simpl. lia.
  - exists r, g'. split; [exact Hrun|].
    rewrite Hsame by (try reflexivity; simpl; lia). exact Hwin.
Defined.





(** C5, as stated, fails: with the send time at noon and the generator in
    state 16, the offset drawn is 5 minutes and the first hop adds 30
    seconds, so the first hop is 270 seconds before the send time. *)
Lemma first_hop_closer_than_five_minutes :
  exists (hops : Z) (chain : list pystr) (t0 : datetime) (rest : list datetime)
         (w1 : World),
    gen_hop_schedule Demo.proc_a Demo.relays 1 3 (Some (Demo.at_hour 738886 12))
      {| w_rng := 16; w_tick := 0; w_written := [] |}
      = (Ok (hops, chain, t0 :: rest), w1) /\
    utc_micros (Demo.at_hour 738886 12) - utc_micros t0 = 270 * 1000000 /\
    ~ (5 * 60 * 1000000 <= utc_micros (Demo.at_hour 738886 12) - utc_micros t0
       <= 15 * 60 * 1000000).
Proof.
  eexists _, _, _, _, _. split; [vm_compute; reflexivity|].
  split; [vm_compute; reflexivity|]. vm_compute. intros [Hlo _]. apply Hlo. reflexivity.
Qed.

(** C6, as stated, fails: a plain-text body of 200 characters that starts
    with a line feed gives, with [subject_len = 50], a subject of 49
    characters. *)
Lemma subject_shorter_than_subject_len :
  length Demo.body200 = 200%nat /\
  length (derive_subject false 50 Demo.body200 None) = 49%nat /\
  length (derive_subject false 50 Demo.body200 None) <> 50%nat.
Proof. vm_compute. repeat split; try reflexivity. discriminate. Qed.

(** C7, as stated, fails: for a range from 20:00 to 21:00 of one day every
    candidate lies before [start], the sampler returns [start], and its
    minute of day, 1200, is outside [540, 1020). *)
Lemma clamped_sample_outside_window :
  exists (r : datetime) (g' : Z),
    is_aware (Demo.at_hour 738886 20) = true /\
    is_aware (Demo.at_hour 738886 21) = true /\
    dt_leb (Demo.at_hour 738886 20) (Demo.at_hour 738886 21) = true /\
    random_date_weighted (Demo.at_hour 738886 20) (Demo.at_hour 738886 21)
      540 1020 100 (0 : Z) = (Ok r, g') /\
    minute_of_day r = 1200 /\
    ~ (540 <= minute_of_day r < 1020).
Proof.
  eexists _, _. do 3 (split; [reflexivity|]).
  split; [vm_compute; reflexivity|].
  split; [reflexivity|]. vm_compute. intros [_ Hhi]. discriminate Hhi.
Qed.

(** ** Further properties of the engine *)

Section EngineFacts.

Context {G : Type} `{RandomGen G}.
Variable host : Host.
Variable proc : Process.

(** *** Attachment count *)

Lemma weighted_scan_In (pairs : list (Z * float)) :
  forall (upto r : float) (item : Z),
    weighted_scan pairs upto r = Some item -> In item (List.map fst pairs).
Proof.
  induction pairs as [|[c w] rest IH]; intros upto r item Hs; simpl in *;
    [discriminate|].
  destruct (PrimFloat.leb r (PrimFloat.add upto w)).
  - inversion Hs. left. reflexivity.
  - right. eapply IH. exact Hs.
Qed.

Lemma last_In (l : list Z) (d : Z) : l <> [] -> In (List.last l d) l.
Proof.
  induction l as [|a l IH]; intros Hne; [congruence|].
  destruct l as [|b l']; [left; reflexivity|].
  right. apply IH. discriminate.
Qed.

Lemma weighted_choice_result (pairs : list (Z * float)) (max_cap : Z) (g : G) :
  List.filter (fun cw => fst cw <=? max_cap) pairs <> [] ->
  exists c g',
    weighted_choice pairs max_cap g = (Ok c, g') /\
    (In c (List.map fst (List.filter (fun cw => fst cw <=? max_cap) pairs)) \/ c = 1).
Proof.
  intros Hkept. unfold weighted_choice.
  destruct (List.filter (fun cw => fst cw <=? max_cap) pairs) as [|p0 kept] eqn:E;
    [congruence|].
  cbv zeta.
  match goal with |- context [if ?b then _ else _] => destruct b end.
  - exists 1, g. split; [reflexivity|right; reflexivity].
  - unfold bind, random_random. destruct (rg_random g) as [x g'].
    match goal with |- context [weighted_scan ?a ?b ?c] =>
      destruct (weighted_scan a b c) as [item|] eqn:Hs end.
    + exists item, g'. split; [reflexivity|left].
      eapply weighted_scan_In. exact Hs.
    + eexists _, g'. split; [reflexivity|left].
      apply last_In. discriminate.
Qed.

Lemma weighted_choice_capped (max_cap : Z) (g : G) :
  1 <= max_cap ->
  exists (c : Z) (g' : G),
    weighted_choice ATTACH_COUNT_DIST max_cap g = (Ok c, g') /\
    1 <= c <= 4 /\ c <= max_cap.
Proof.
  intros Hcap.
  destruct (weighted_choice_result ATTACH_COUNT_DIST max_cap g) as (c & g' & Hrun & Hc).
  { unfold ATTACH_COUNT_DIST. cbn [List.filter fst].
    destruct (Z.leb_spec 1 max_cap); [discriminate|lia]. }
  exists c, g'. split; [exact Hrun|].
  destruct Hc as [Hin| ->]; [|lia].
  apply in_map_iff in Hin as ([c' w] & <- & Hin).
  apply filter_In in Hin as [Hin Hle]. simpl in Hle. apply Z.leb_le in Hle.
  unfold ATTACH_COUNT_DIST in Hin. simpl in Hin.
  destruct Hin as [Heq|[Heq|[Heq|[Heq|[]]]]]; inversion Heq; subst; simpl; lia.
Qed.

(** X1: with a cap of at least 1, the attachment-count draw returns a count
    between 1 and 4 that does not exceed the cap; with a cap of 1 it returns
    1, with a cap of 2 it returns 1 or 2. *)
Theorem weighted_choice_within_cap :
  forall (max_cap : Z) (g : G),
    1 <= max_cap ->
    exists (c : Z) (g' : G),
      weighted_choice ATTACH_COUNT_DIST max_cap g = (Ok c, g') /\
      1 <= c <= 4 /\ c <= max_cap /\
      (max_cap = 1 -> c = 1) /\ (max_cap = 2 -> c = 1 \/ c = 2).
Proof.
  intros max_cap g Hcap.
  destruct (weighted_choice_capped max_cap g Hcap) as (c & g' & Hrun & Rc & Rcap).
  exists c, g'. repeat split; try assumption; try lia.
Qed.

(** *** Selector *)

(** X2: in random mode a call on a non-empty list draws one index below the
    length of the list, returns the item at that index and leaves the
    selector, hence every cursor, as it was. *)
Theorem choose_random_mode :
  forall (A : Type) (self : Selector) (key : Z) (items : list A) (g : G),
    mode self = lit "random" ->
    items <> [] ->
    exists x : A,
      items !! Z.to_nat (fst (rg_randbelow (Z.of_nat (length items)) g)) = Some x /\
      choose self key items g =
        (Ok (x, self), snd (rg_randbelow (Z.of_nat (length items)) g)).
Proof.
  intros A self key items g Hmode Hne.
  assert (Hlen : 0 < Z.of_nat (length items))
    by (destruct items; simpl; [congruence|lia]).
  pose proof (rg_randbelow_range _ g Hlen) as Hr.
  destruct (rg_randbelow (Z.of_nat (length items)) g) as [i g'] eqn:Hd.
  simpl in Hr. simpl fst. simpl snd.
  destruct (lookup_lt_is_Some_2 items (Z.to_nat i)) as [x Hx]; [lia|].
  exists x. split; [exact Hx|].
  unfold choose. rewrite Hmode.
  change (str_eqb (lit "random") (lit "random")) with true.
  assert (Hc : choice items g = (Ok x, g')).
  { unfold choice, bind, randbelow, ret.
    destruct items as [|a l] eqn:E; [congruence|]. rewrite <- E in *.
    rewrite Hd, Hx. reflexivity. }
  destruct items as [|a l]; [congruence|].
  unfold bind, ret. rewrite Hc. reflexivity.
Qed.

(** X3: in linear mode, [n] calls with one key and a non-empty list, from
    any cursor [c], return the items at positions [c, c+1, ...] modulo the
    length of the list, draw nothing from the generator, and leave a cursor
    inside the list. *)
Theorem linear_choose_from_cursor :
  forall (A : Type) (self : Selector) (key : Z) (items : list A) (n : nat) (g : G),
    str_eqb (mode self) (lit "random") = false ->
    items <> [] ->
    (0 < n)%nat ->
    exists (xs : list A) (self' : Selector),
      choose_times self key items n g = (Ok (xs, self'), g) /\
      length xs = n /\
      (forall j : nat, (j < n)%nat ->
         xs !! j = items !! Z.to_nat ((cursor self key + Z.of_nat j)
                                        mod Z.of_nat (length items))) /\
      _idx self' !! key =
        Some ((cursor self key + Z.of_nat n) mod Z.of_nat (length items)) /\
      0 <= cursor self' key < Z.of_nat (length items).
Proof.
  intros A self key items n g Hmode Hne Hn.
  assert (Hlen : 0 < Z.of_nat (length items))
    by (destruct items; simpl; [congruence|lia]).
  destruct (choose_times_linear items key Hne n self g Hmode)
    as (xs & self' & Hrun & Hl & Hlook & _ & _ & Hcur).
  specialize (Hcur Hn).
  exists xs, self'. split; [exact Hrun|]. split; [exact Hl|]. split; [exact Hlook|].
  split.
  - (* the cursor is stored, not defaulted: the last call inserted it *)
    destruct n as [|n']; [lia|].
    clear Hlook Hl Hcur Hn. revert self g xs self' Hmode Hrun.
    induction n' as [|n'' IH]; intros self g xs self' Hmode Hrun.
    + simpl in Hrun. destruct (choose_linear self key items g Hne Hmode) as (x & _ & Hc).
      unfold bind, ret in Hrun. rewrite Hc in Hrun. simpl in Hrun.
      inversion Hrun; subst. simpl. rewrite lookup_insert_eq.
      f_equal.
    + change (choose_times self key items (S (S n'')) g) with
        (bind (choose self key items)
           (fun r => bind (choose_times (snd r) key items (S n''))
                       (fun rs => ret (fst r :: fst rs, snd rs))) g) in Hrun.
      destruct (choose_linear self key items g Hne Hmode) as (x & _ & Hc).
      unfold bind at 1 in Hrun. rewrite Hc in Hrun. cbn [fst snd] in Hrun.
      set (self1 := {| mode := mode self;
                       _idx := <[key := (cursor self key + 1) mod Z.of_nat (length items)]>
                                 (_idx self) |}) in *.
      unfold bind at 1 in Hrun.
      destruct (choose_times self1 key items (S n'') g) as [[[ys s2]|e] g2] eqn:Hrest;
        [|discriminate].
      unfold ret in Hrun. inversion Hrun; subst. simpl.
      rewrite (IH self1 g ys self' Hmode Hrest).
      unfold cursor at 1, self1. simpl. rewrite lookup_insert_eq. simpl.
      rewrite Zplus_mod_idemp_l. do 2 f_equal. lia.
  - rewrite Hcur. apply Z.mod_pos_bound. exact Hlen.
Qed.

(** *** Temporal model *)

Lemma random_date_weighted_spec (start end_ : datetime) (bs be bias : Z) (g : G) :
  is_aware start = true -> is_aware end_ = true ->
  dt_ordinal start <= dt_ordinal end_ ->
  0 <= bs -> bs < be -> be <= 24 * 60 ->
  exists (day b m sec : Z) (g' : G),
    let cand := {| dt_ordinal := day; dt_hour := m / 60; dt_minute := m mod 60;
                   dt_second := sec; dt_microsecond := 0; dt_tzinfo := utc |} in
    random_date_weighted start end_ bs be bias g =
      (Ok (if dt_ltb cand start then start
           else if dt_ltb end_ cand then end_ else cand), g') /\
    dt_ordinal start <= day <= dt_ordinal end_ /\
    1 <= b <= 100 /\ 0 <= m < 24 * 60 /\ 0 <= sec <= 59 /\
    (b <= bias -> bs <= m < be) /\
    (bias < b -> m < bs \/ be <= m \/ (bs = 0 /\ be = 24 * 60)).
Proof.
  intros Hs He Hord Hbs Hlt Hbe. unfold random_date_weighted, is_aware in *.
  destruct (dt_tzinfo start); [|discriminate]. destruct (dt_tzinfo end_); [|discriminate].
  destruct (Z.ltb_spec (dt_ordinal end_) (dt_ordinal start)); [lia|]. cbv zeta.
  destruct (randint_spec 0 (dt_ordinal end_ - dt_ordinal start) g ltac:(lia))
    as (off & g1 & Hoff & Roff).
  destruct (randint_spec 1 100 g1 ltac:(lia)) as (b & g2 & Hb & Rb).
  assert (Hmin : exists m g3,
    (if (b <=? bias) && (bs <? be) then randint bs (be - 1)
     else match py_range 0 bs ++ py_range be (24 * 60) with
          | [] => randint bs (be - 1)
          | _ :: _ => choice (py_range 0 bs ++ py_range be (24 * 60))
          end) g2 = (Ok m, g3) /\
    0 <= m < 24 * 60 /\
    (b <= bias -> bs <= m < be) /\
    (bias < b -> m < bs \/ be <= m \/ (bs = 0 /\ be = 24 * 60))).
  { destruct (Z.ltb_spec bs be); [|lia].
    destruct (Z.leb_spec b bias); simpl andb; cbv iota.
    - destruct (randint_spec bs (be - 1) g2 ltac:(lia)) as (m & g3 & Hm & Rm).
      exists m, g3. split; [exact Hm|]. split; [lia|]. split; intros; lia.
    - destruct (py_range 0 bs ++ py_range be (24 * 60)) as [|x l] eqn:E.
      + destruct (randint_spec bs (be - 1) g2 ltac:(lia)) as (m & g3 & Hm & Rm).
        exists m, g3. split; [exact Hm|]. split; [lia|]. split; [intros; lia|].
        intros _. right. right.
        apply app_eq_nil in E as [E1 E2]. unfold py_range in E1, E2.
        apply map_eq_nil in E1, E2.
        apply (f_equal (@length nat)) in E1, E2. rewrite length_seq in E1, E2.
        simpl in E1, E2. lia.
      + rewrite <- E.
        destruct (choice_spec (py_range 0 bs ++ py_range be (24 * 60)) g2)
          as (m & g3 & Hm & Hin); [rewrite E; discriminate|].
        exists m, g3. split; [exact Hm|].
        apply elem_of_app in Hin as [Hin|Hin]; apply elem_of_py_range in Hin;
          (split; [lia|split; intros; lia]). }
  destruct Hmin as (m & g3 & Hm & Rm & Hin & Hout).
  destruct (randint_spec 0 59 g3 ltac:(lia)) as (sec & g4 & Hsec & Rsec).
  exists (dt_ordinal start + off), b, m, sec, g4. cbv zeta.
  split; [|repeat split; try assumption; try lia].
  unfold bind at 1. rewrite Hoff.
  unfold bind at 1. rewrite Hb.
  unfold bind at 1. rewrite Hm.
  unfold bind at 1. rewrite Hsec.
  unfold bind at 1, lift_outcome. rewrite datetime_new_ok by lia.
  match goal with |- context [dt_ltb ?c start] =>
    destruct (dt_ltb c start); [reflexivity|];
    destruct (dt_ltb end_ c); reflexivity end.
Qed.

(** X4: for aware [start <= end] whose dates are ordered and a business
    window with [0 <= start_min < end_min <= 1440], the weighted sampler
    returns, whatever the bias, a timestamp [r] with [start <= r <= end]. *)
Theorem weighted_sample_within_range :
  forall (start end_ : datetime) (bs be bias : Z) (g : G),
    is_aware start = true -> is_aware end_ = true ->
    dt_ordinal start <= dt_ordinal end_ ->
    dt_leb start end_ = true ->
    0 <= bs -> bs < be -> be <= 24 * 60 ->
    exists (r : datetime) (g' : G),
      random_date_weighted start end_ bs be bias g = (Ok r, g') /\
      dt_leb start r = true /\ dt_leb r end_ = true.
Proof.
  intros start end_ bs be bias g Hs He Hord Hle Hbs Hlt Hbe.
  destruct (random_date_weighted_spec start end_ bs be bias g Hs He Hord Hbs Hlt Hbe)
    as (day & b & m & sec & g' & Hrun & _).
  cbv zeta in Hrun. eexists _, g'. split; [exact Hrun|].
  unfold dt_leb, dt_ltb in *. apply Z.leb_le in Hle.
  match goal with |- context [utc_micros ?c <? utc_micros start] =>
    destruct (Z.ltb_spec (utc_micros c) (utc_micros start));
    [|destruct (Z.ltb_spec (utc_micros end_) (utc_micros c))] end;
    split; apply Z.leb_le; lia.
Qed.

(** X5: with a bias of 0 or less and a business window that leaves part of
    the day outside, the minute of day of the candidate is never inside the
    window; the candidate is returned unless it falls outside
    [start, end]. *)
Theorem weighted_sample_no_bias_outside_window :
  forall (start end_ : datetime) (bs be bias : Z) (g : G),
    is_aware start = true -> is_aware end_ = true ->
    dt_ordinal start <= dt_ordinal end_ ->
    0 <= bs -> bs < be -> be <= 24 * 60 ->
    bias <= 0 ->
    0 < bs \/ be < 24 * 60 ->
    exists (day m sec : Z) (g' : G),
      let cand := {| dt_ordinal := day; dt_hour := m / 60; dt_minute := m mod 60;
                     dt_second := sec; dt_microsecond := 0; dt_tzinfo := utc |} in
      random_date_weighted start end_ bs be bias g =
        (Ok (if dt_ltb cand start then start
             else if dt_ltb end_ cand then end_ else cand), g') /\
      dt_ordinal start <= day <= dt_ordinal end_ /\
      0 <= minute_of_day cand < 24 * 60 /\
      ~ (bs <= minute_of_day cand < be).
Proof.
  intros start end_ bs be bias g Hs He Hord Hbs Hlt Hbe Hbias Hpart.
  destruct (random_date_weighted_spec start end_ bs be bias g Hs He Hord Hbs Hlt Hbe)
    as (day & b & m & sec & g' & Hrun & Hday & Rb & Rm & Rsec & _ & Hout).
  exists day, m, sec, g'. cbv zeta. split; [exact Hrun|]. split; [exact Hday|].
  rewrite minute_of_day_split. split; [exact Rm|].
  specialize (Hout ltac:(lia)). lia.
Qed.

(** X6: with a valid business window, the weighted sampler raises exactly
    when [start] or [end] is naive or the date of [start] is after the date
    of [end]; it then raises [ValueError] without drawing. *)
Theorem weighted_sample_raises_iff :
  forall (start end_ : datetime) (bs be bias : Z) (g : G),
    0 <= bs -> bs < be -> be <= 24 * 60 ->
    (is_ok (fst (random_date_weighted start end_ bs be bias g)) = false <->
     is_aware start = false \/ is_aware end_ = false \/
     dt_ordinal end_ < dt_ordinal start) /\
    (is_ok (fst (random_date_weighted start end_ bs be bias g)) = false ->
     exists msg, random_date_weighted start end_ bs be bias g =
                   (Raise (ValueError msg), g)).
Proof.
  intros start end_ bs be bias g Hbs Hlt Hbe.
  destruct (is_aware start) eqn:Hs; [destruct (is_aware end_) eqn:He;
    [destruct (Z.lt_ge_cases (dt_ordinal end_) (dt_ordinal start)) as [Hord|Hord]|]|].
  - assert (Hrun : random_date_weighted start end_ bs be bias g =
                   (Raise (ValueError "Start date must be <= end date"), g)).
    { unfold random_date_weighted, is_aware in *.
      destruct (dt_tzinfo start); [|discriminate].
      destruct (dt_tzinfo end_); [|discriminate].
      destruct (Z.ltb_spec (dt_ordinal end_) (dt_ordinal start)); [reflexivity|lia]. }
    rewrite Hrun. simpl. split; [split; auto|eauto].
  - destruct (random_date_weighted_spec start end_ bs be bias g Hs He Hord Hbs Hlt Hbe)
      as (day & b & m & sec & g' & Hrun & _).
    cbv zeta in Hrun. rewrite Hrun. simpl.
    split; [split; [discriminate|intros [?|[?|?]]; try discriminate; lia]|discriminate].
  - assert (Hrun : random_date_weighted start end_ bs be bias g =
                   (Raise (ValueError "Start/end must be timezone-aware"), g)).
    { unfold random_date_weighted, is_aware in *.
      destruct (dt_tzinfo start); [|discriminate].
      destruct (dt_tzinfo end_); [discriminate|reflexivity]. }
    rewrite Hrun. simpl. split; [split; auto|eauto].
  - assert (Hrun : random_date_weighted start end_ bs be bias g =
                   (Raise (ValueError "Start/end must be timezone-aware"), g)).
    { unfold random_date_weighted, is_aware in *.
      destruct (dt_tzinfo start); [discriminate|reflexivity]. }
    rewrite Hrun. simpl. split; [split; auto|eauto].
Qed.

(** *** Splitting at a separator *)

Lemma split_once_spec (sep : N) (s : pystr) :
  forall a b, split_once sep s = Some (a, b) -> s = a ++ sep :: b /\ sep ∉ a.
Proof.
  induction s as [|c r IH]; intros a b Hs; simpl in Hs; [discriminate|].
  destruct (N.eqb_spec c sep) as [->|Hne].
  - inversion Hs; subst. split; [reflexivity|]. intros Hin. inversion Hin.
  - destruct (split_once sep r) as [[a' b']|] eqn:E; [|discriminate].
    inversion Hs; subst. destruct (IH a' b eq_refl) as [-> Hno].
    split; [reflexivity|]. intros Hin. apply elem_of_cons in Hin as [Heq|Hin];
      [congruence|exact (Hno Hin)].
Qed.

Lemma split_once_present (sep : N) (s : pystr) :
  sep ∈ s -> exists a b, split_once sep s = Some (a, b).
Proof.
  induction s as [|c r IH]; intros Hin; [inversion Hin|].
  simpl. destruct (N.eqb_spec c sep) as [->|Hne]; [eauto|].
  apply elem_of_cons in Hin as [Heq|Hin]; [congruence|].
  destruct (IH Hin) as (a & b & ->). eauto.
Qed.

(** X7: for an address that holds an [@], the extracted domain is what
    follows the first [@]: the address is the local part, the [@] and the
    domain, and the local part holds no [@]. *)
Theorem parse_domain_after_first_at :
  forall addr : pystr,
    AT ∈ addr ->
    exists local : pystr,
      addr = local ++ AT :: parse_domain_from_email addr /\ AT ∉ local.
Proof.
  intros addr Hin.
  destruct (split_once_present AT addr Hin) as (a & b & Hs).
  destruct (split_once_spec AT addr a b Hs) as [Heq Hno].
  exists a. unfold parse_domain_from_email, str_split1. rewrite Hs. simpl.
  split; assumption.
Qed.

(** X8: [guess_mime_type] gives [application/octet-stream] for a path of
    unknown type; for a known type that holds a slash it returns the two
    sides of the first slash; for a known type without a slash it raises. *)
Theorem guess_mime_type_cases :
  forall path : pystr,
    match guess_type host path with
    | None =>
      guess_mime_type host path = Ok (lit "application", lit "octet-stream")
    | Some ctype =>
      (SLASH ∈ ctype ->
       exists maintype subtype,
         guess_mime_type host path = Ok (maintype, subtype) /\
         ctype = maintype ++ SLASH :: subtype /\ SLASH ∉ maintype) /\
      (SLASH ∉ ctype -> is_ok (guess_mime_type host path) = false)
    end.
Proof.
  intros path. unfold guess_mime_type.
  destruct (guess_type host path) as [ctype|]; [|reflexivity].
  split.
  - intros Hin. destruct (split_once_present SLASH ctype Hin) as (a & b & Hs).
    destruct (split_once_spec SLASH ctype a b Hs) as [Heq Hno].
    exists a, b. unfold str_split1. rewrite Hs. auto.
  - intros Hno. unfold str_split1.
    rewrite (split_once_absent SLASH ctype Hno). reflexivity.
Qed.

(** *** White space *)

Lemma lstrip_head (s : pystr) (c : N) :
  head (lstrip s) = Some c -> is_space c = false.
Proof.
  induction s as [|a r IH]; simpl; [discriminate|].
  destruct (is_space a) eqn:Ha; [exact IH|].
  simpl. intros Heq. inversion Heq; subst. exact Ha.
Qed.

Lemma lstrip_nonspace_head (s : pystr) :
  (forall c, head s = Some c -> is_space c = false) -> lstrip s = s.
Proof.
  intros Hh. destruct s as [|c r]; [reflexivity|].
  simpl. rewrite (Hh c); reflexivity.
Qed.

Lemma last_rev_head (s : pystr) : last (rev s) = head s.
Proof.
  destruct s as [|c r]; [reflexivity|]. simpl. apply last_snoc.
Qed.

Lemma head_rev_last (s : pystr) : head (rev s) = last s.
Proof. rewrite <- (rev_involutive s) at 2. symmetry. apply last_rev_head. Qed.

Lemma last_suffix (pre s : pystr) (c : N) :
  last s = Some c -> last (pre ++ s) = Some c.
Proof.
  intros Hl. destruct s as [|a r]; [discriminate|].
  rewrite last_app. rewrite Hl. reflexivity.
Qed.

(** [strip] leaves no white space at either end. *)
Lemma strip_ends (s : pystr) :
  (forall c, head (strip s) = Some c -> is_space c = false) /\
  (forall c, last (strip s) = Some c -> is_space c = false).
Proof.
  unfold strip, rstrip. set (t := lstrip s). set (u := lstrip (rev t)).
  split; intros c Hc.
  - rewrite head_rev_last in Hc.
    destruct (lstrip_suffix (rev t)) as [pre Hpre]. fold u in Hpre.
    apply (last_suffix pre) in Hc. rewrite <- Hpre, last_rev_head in Hc.
    apply (lstrip_head s). exact Hc.
  - rewrite last_rev_head in Hc. apply (lstrip_head (rev t)). exact Hc.
Qed.

Lemma strip_idempotent (s : pystr) : strip (strip s) = strip s.
Proof. destruct (strip_ends s). apply strip_id; assumption. Qed.

Lemma rstrip_prefix (s : pystr) : exists post, s = rstrip s ++ post.
Proof.
  unfold rstrip. destruct (lstrip_suffix (rev s)) as [pre Hpre].
  exists (rev pre). rewrite <- rev_app_distr, <- Hpre, rev_involutive. reflexivity.
Qed.

Lemma single_spaced_lstrip (s : pystr) :
  forall b, single_spaced s b = true -> single_spaced (lstrip s) false = true.
Proof.
  induction s as [|c r IH]; intros b Hs; [reflexivity|].
  simpl in *. destruct (is_space c) eqn:Hc.
  - apply andb_prop in Hs as [_ Hs]. eapply IH. exact Hs.
  - simpl. rewrite Hc. exact Hs.
Qed.

Lemma single_spaced_prefix (s post : pystr) :
  forall b, single_spaced (s ++ post) b = true -> single_spaced s b = true.
Proof.
  induction s as [|c r IH]; intros b Hs; [reflexivity|].
  simpl in *. destruct (is_space c).
  - apply andb_prop in Hs as [Hs1 Hs2]. rewrite Hs1. simpl. apply IH. exact Hs2.
  - apply IH. exact Hs.
Qed.

Lemma single_spaced_strip (s : pystr) (b : bool) :
  single_spaced s b = true -> single_spaced (strip s) false = true.
Proof.
  intros Hs. unfold strip. apply single_spaced_lstrip in Hs.
  destruct (rstrip_prefix (lstrip s)) as [post Hpost].
  rewrite Hpost in Hs. eapply single_spaced_prefix. exact Hs.
Qed.

Lemma sub_runs_single_spaced (s : pystr) :
  forall b, single_spaced (sub_runs is_space s b) b = true.
Proof.
  induction s as [|c r IH]; intros b; [reflexivity|].
  simpl. destruct (is_space c) eqn:Hc.
  - destruct b; [apply IH|]. simpl. apply IH.
  - simpl. rewrite Hc. apply IH.
Qed.

Lemma single_spaced_sub_runs_id (s : pystr) :
  forall b, single_spaced s b = true -> sub_runs is_space s b = s.
Proof.
  induction s as [|c r IH]; intros b Hs; [reflexivity|].
  simpl in *. destruct (is_space c) eqn:Hc.
  - apply andb_prop in Hs as [Hs1 Hs2]. apply andb_prop in Hs1 as [Hc1 Hb].
    apply N.eqb_eq in Hc1. subst c. destruct b; [discriminate|].
    rewrite (IH true Hs2). reflexivity.
  - rewrite (IH false Hs). reflexivity.
Qed.

Lemma single_spaced_no_newline (s : pystr) :
  forall b, single_spaced s b = true -> Forall (fun c => is_newline c = false) s.
Proof.
  induction s as [|c r IH]; intros b Hs; [constructor|].
  simpl in Hs. destruct (is_space c) eqn:Hc.
  - apply andb_prop in Hs as [Hs1 Hs2]. apply andb_prop in Hs1 as [Hc1 _].
    apply N.eqb_eq in Hc1. subst c. constructor; [reflexivity|eapply IH; eauto].
  - constructor; [|eapply IH; eauto].
    unfold is_newline, is_space, CR, LF in *.
    destruct (N.eqb_spec c 13) as [->|]; [discriminate|].
    destruct (N.eqb_spec c 10) as [->|]; [discriminate|]. reflexivity.
Qed.

(** X9: the text that [strip_html] returns is normalised: its only white
    space is single plain spaces between other characters, none at either
    end; collapsing white space and stripping it again changes nothing. *)
Theorem strip_html_normalised :
  forall html_text : pystr,
    let text := strip_html html_text in
    single_spaced text false = true /\
    (forall c, head text = Some c -> is_space c = false) /\
    (forall c, last text = Some c -> is_space c = false) /\
    strip (sub_runs is_space text false) = text /\
    sanitize_subject text = text.
Proof.
  intros html_text text.
  assert (Hss : single_spaced text false = true).
  { unfold text, strip_html. eapply single_spaced_strip, sub_runs_single_spaced. }
  destruct (strip_ends (sub_runs is_space (sub_tags html_text None) false)) as [Hh Hl].
  fold (strip_html html_text) in Hh, Hl. fold text in Hh, Hl.
  split; [exact Hss|]. split; [exact Hh|]. split; [exact Hl|].
  split.
  - rewrite (single_spaced_sub_runs_id text false Hss). apply strip_id; assumption.
  - unfold sanitize_subject.
    rewrite sub_runs_id; [apply strip_id; assumption|].
    eapply single_spaced_no_newline. exact Hss.
Qed.

(** X10: [sanitize_subject] is idempotent, and what it returns holds no
    carriage return or line feed and no white space at either end. *)
Theorem sanitize_subject_idempotent :
  forall s : pystr,
    sanitize_subject (sanitize_subject s) = sanitize_subject s /\
    Forall (fun c => is_newline c = false) (sanitize_subject s) /\
    (forall c, head (sanitize_subject s) = Some c -> is_space c = false) /\
    (forall c, last (sanitize_subject s) = Some c -> is_space c = false).
Proof.
  intros s. pose proof (sanitize_subject_clean s) as Hc.
  destruct (strip_ends (sub_runs is_newline s false)) as [Hh Hl].
  fold (sanitize_subject s) in Hh, Hl.
  split; [|auto].
  unfold sanitize_subject at 1. rewrite (sub_runs_id _ _ Hc).
  apply strip_id; assumption.
Qed.

(** X11: every entry that [read_list_file] returns is a line of the file
    with the white space at its ends removed, is not empty, and the entries
    keep the order of the lines. *)
Theorem read_list_file_entries :
  forall path : pystr,
    sublist (read_list_file host path) (List.map strip (file_lines host path)) /\
    (forall s, In s (read_list_file host path) ->
       s <> [] /\ strip s = s /\
       (forall c, head s = Some c -> is_space c = false) /\
       (forall c, last s = Some c -> is_space c = false) /\
       exists line, In line (file_lines host path) /\ s = strip line).
Proof.
  intros path. split.
  { unfold read_list_file.
    induction (List.map strip (file_lines host path)) as [|a l IH]; simpl;
      [constructor|].
    destruct (negb (str_eqb a [])); [apply sublist_skip|apply sublist_cons];
      exact IH. }
  intros s Hin. unfold read_list_file in Hin.
  apply filter_In in Hin as [Hin Hne]. apply in_map_iff in Hin as (line & <- & Hline).
  split.
  - intros Heq. rewrite Heq in Hne. discriminate.
  - split; [apply strip_idempotent|].
    destruct (strip_ends line) as [Hh Hl]. repeat split; eauto.
Qed.

(** *** Message assembly *)

Lemma attach_file_attachment_of (msg : EmailMessage) (ap : pystr) :
  attach_file host msg ap =
  match attachment_of host ap with
  | Some a => add_attachment a msg
  | None => msg
  end.
Proof.
  unfold attach_file, attachment_of.
  destruct (guess_mime_type host ap) as [[mt st]|e]; [|reflexivity].
  destruct (read_bytes host ap); reflexivity.
Qed.

Lemma fold_attach_parts (paths : list pystr) :
  forall msg : EmailMessage,
    msg_content (fold_left (attach_file host) paths msg) = msg_content msg /\
    msg_alternative (fold_left (attach_file host) paths msg) = msg_alternative msg /\
    msg_attachments (fold_left (attach_file host) paths msg) =
      msg_attachments msg ++ omap (attachment_of host) paths.
Proof.
  induction paths as [|ap rest IH]; intros msg; simpl.
  - rewrite app_nil_r. auto.
  - destruct (IH (attach_file host msg ap)) as (Hc & Ha & Ht).
    rewrite Hc, Ha, Ht, attach_file_attachment_of.
    destruct (attachment_of host ap) as [a|]; simpl; [|auto].
    rewrite <- app_assoc. auto.
Qed.

Lemma fold_received_parts (rhs : list pystr) :
  forall msg : EmailMessage,
    let msg' := fold_left (fun m rh => set_header (lit "Received") rh m) rhs msg in
    msg_content msg' = msg_content msg /\
    msg_alternative msg' = msg_alternative msg /\
    msg_attachments msg' = msg_attachments msg.
Proof.
  induction rhs as [|rh rest IH]; intros msg; simpl; [auto|].
  destruct (IH (set_header (lit "Received") rh msg)) as (Hc & Ha & Ht).
  simpl in *. rewrite Hc, Ha, Ht. auto.
Qed.


(** X13: the plain-text part of a built message is never empty: it is the
    given text body when there is one, else the HTML body without its markup
    for an HTML message, else the placeholder; the message has an HTML
    alternative exactly when it is flagged HTML and an HTML body is given. *)
Theorem build_email_body_parts :
  forall (from_addr to_addr : pystr) (is_html : bool) (subject_len : Z)
         (text_body : pystr) (html_body : option pystr)
         (attach_paths relay_hosts : list pystr) (msg_date : option datetime)
         (w : World),
    exists (msg : EmailMessage) (w' : World) (content : pystr),
      build_email host proc from_addr to_addr is_html subject_len text_body
        html_body attach_paths relay_hosts msg_date w = (Ok msg, w') /\
      msg_content msg = Some content /\
      content <> [] /\
      (text_body <> [] -> content = text_body) /\
      (text_body = [] ->
       content = match html_body with
                 | Some html =>
                   if is_html then or_no_text (strip_html html) else lit "(no text)"
                 | None => lit "(no text)"
                 end) /\
      msg_alternative msg = (if is_html then html_body else None).
Proof.
  intros from_addr to_addr is_html subject_len text_body html_body attach_paths
         relay_hosts msg_date w.
  destruct (build_email_spec host proc from_addr to_addr is_html subject_len
              text_body html_body attach_paths relay_hosts msg_date w)
    as (lines & g1 & r & g2 & _ & _ & Hbuild).
  cbv zeta in Hbuild.
  assert (Hor : forall x, or_no_text x <> []) by (intros [|c x]; discriminate).
  exists (assemble_message host lines from_addr to_addr
            (msgid_text
               (Z.quot (clock proc (received_tick relay_hosts msg_date w)) 10000)
               (getpid proc) r (parse_domain_from_email from_addr))
            (date_text host msg_date
               (clock proc (S (received_tick relay_hosts msg_date w))))
            is_html subject_len text_body html_body attach_paths).
  eexists.
  exists (match html_body with
          | Some html =>
            if is_html then
              or_no_text match text_body with [] => strip_html html | _ => text_body end
            else or_no_text text_body
          | None => or_no_text text_body
          end).
  split; [exact Hbuild|].
  unfold assemble_message.
  match goal with |- context [fold_left (attach_file host) attach_paths ?m] =>
    destruct (fold_attach_parts attach_paths m) as (Hc & Ha & _) end.
  rewrite Hc, Ha. clear Hc Ha Hbuild.
  destruct (fold_received_parts lines EmailMessage_new) as (_ & Hra & _).
  cbv zeta in Hra.
  destruct html_body as [html|]; destruct is_html; simpl; rewrite ?Hra;
    (split; [reflexivity|]);
    (split; [apply Hor|]);
    (split; [intros Hne; destruct text_body; [congruence|reflexivity]|]);
    (split; [intros ->; reflexivity|reflexivity]).
Qed.


(** *** One iteration *)

(** X15: the body selection of an iteration returns an HTML flag, a text and
    an optional HTML body such that: the flag is set only when HTML was
    wanted and an HTML body was loaded (the text is then empty); with text
    files present an unflagged message has no HTML body; with no text files
    the text is the markup-free HTML body, or the placeholder when the file
    cannot be read; with no HTML files the message is plain text. *)
Theorem choose_bodies_cases :
  forall (selector : Selector) (want_html : bool)
         (text_files html_files : list pystr) (g : G),
    (want_html = true -> html_files <> []) ->
    text_files <> [] \/ html_files <> [] ->
    exists (choose_html : bool) (text : pystr) (html : option pystr)
           (selector' : Selector) (g' : G),
      choose_bodies host selector want_html text_files html_files g =
        (Ok (choose_html, text, html, selector'), g') /\
      (choose_html = true ->
         want_html = true /\ text = [] /\ exists h, html = Some h) /\
      (choose_html = false -> text_files <> [] -> html = None) /\
      (choose_html = false -> text_files = [] ->
         (exists h, html = Some h /\ text = strip_html h) \/
         (html = None /\ text = lit "(no text)")) /\
      (html_files = [] -> choose_html = false /\ html = None) /\
      (want_html = false -> choose_html = false).
Proof.
  intros selector want_html text_files html_files g Hwant Hsome.
  unfold choose_bodies.
  assert (Hfirst : exists ch html sel1 g1,
    (if want_html then
       bind (choose selector KEY_HTML html_files)
         (fun r => match read_text host (fst r) with
                   | Some html => ret (true, Some html, snd r)
                   | None => ret (false, None, snd r)
                   end)
     else ret (false, None, selector)) g = (Ok (ch, html, sel1), g1) /\
    (ch = true -> want_html = true /\ exists h, html = Some h) /\
    (ch = false -> html = None)).
  { destruct want_html.
    - destruct (choose_ok selector KEY_HTML html_files g (Hwant eq_refl))
        as (x & s1 & g1 & Hc & _).
      unfold bind. rewrite Hc. cbn [fst snd].
      destruct (read_text host x) as [h|]; unfold ret;
        eexists _, _, _, _; (split; [reflexivity|]); split; intros; eauto; discriminate.
    - eexists _, _, _, _. split; [reflexivity|]. split; intros; [discriminate|reflexivity]. }
  destruct Hfirst as (ch & html & sel1 & g1 & H1 & Hch & Hnch).
  unfold bind at 1. rewrite H1. cbv beta iota.
  destruct ch.
  - destruct (Hch eq_refl) as (Hw & h & ->).
    eexists _, _, _, _, _. split; [reflexivity|].
    split; [eauto|]. split; [discriminate|]. split; [discriminate|].
    split; [|intros; congruence]. intros ->. exfalso. apply (Hwant Hw). reflexivity.
  - rewrite (Hnch eq_refl). clear Hch Hnch H1.
    destruct text_files as [|t ts] eqn:Et.
    + destruct Hsome as [Hs|Hs]; [congruence|]. cbn [nonempty].
      destruct (choose_ok sel1 KEY_HTML html_files g1 Hs) as (x & s2 & g2 & Hc & _).
      unfold bind. rewrite Hc. cbn [fst snd].
      destruct (read_text host x) as [h|]; unfold ret;
        eexists _, _, _, _, _; (split; [reflexivity|]);
        (split; [discriminate|]); (split; [congruence|]);
        (split; [eauto|]); (split; [congruence|reflexivity]).
    + rewrite <- Et. assert (Hne : text_files <> []) by (rewrite Et; discriminate).
      assert (Hn : nonempty text_files = true) by (rewrite Et; reflexivity).
      rewrite Hn.
      destruct (choose_ok sel1 KEY_TEXT text_files g1 Hne) as (x & s2 & g2 & Hc & _).
      unfold bind. rewrite Hc. cbn [fst snd].
      destruct (read_text host x) as [txt|]; unfold ret;
        eexists _, _, _, _, _; (split; [reflexivity|]);
        (split; [discriminate|]); (split; [reflexivity|]);
        (split; [intros _ Hno; rewrite Hno in Et; discriminate|]);
        (split; [auto|reflexivity]).
Qed.

(** X16: in linear mode, with attachments available and a cap of at least
    1, the attachment list of an iteration has at most 4 entries and no more
    than the cap; its entries are the files at consecutive positions of the
    pool from the cursor of the attachment slot on, modulo the size of the
    pool, so none repeats before the pool is exhausted. *)
Theorem linear_attachments_consecutive :
  forall (config : Config) (selector : Selector) (attach_files : list pystr)
         (attach_probability : float) (g : G),
    selection_mode config = lit "linear" ->
    str_eqb (mode selector) (lit "random") = false ->
    attach_files <> [] ->
    1 <= max_attachments config ->
    exists (attach_list : list pystr) (selector' : Selector) (g' : G),
      choose_attachments config selector attach_files attach_probability g =
        (Ok (attach_list, selector'), g') /\
      Z.of_nat (length attach_list) <= 4 /\
      Z.of_nat (length attach_list) <= max_attachments config /\
      (forall j : nat, (j < length attach_list)%nat ->
         attach_list !! j =
           attach_files !! Z.to_nat ((cursor selector KEY_ATTACH + Z.of_nat j)
                                       mod Z.of_nat (length attach_files))) /\
      (forall i j : nat, (i < j < length attach_list)%nat ->
         (length attach_list <= length attach_files)%nat ->
         (cursor selector KEY_ATTACH + Z.of_nat i) mod Z.of_nat (length attach_files)
         <> (cursor selector KEY_ATTACH + Z.of_nat j) mod Z.of_nat (length attach_files)).
Proof.
  intros config selector attach_files attach_probability g Hlin Hmode Hne Hcap.
  assert (Hdistinct : forall n : nat,
    forall i j : nat, (i < j < n)%nat -> (n <= length attach_files)%nat ->
      (cursor selector KEY_ATTACH + Z.of_nat i) mod Z.of_nat (length attach_files)
      <> (cursor selector KEY_ATTACH + Z.of_nat j) mod Z.of_nat (length attach_files)).
  { intros n i j Hij Hn Heq.
    assert (HK : 0 < Z.of_nat (length attach_files)) by lia.
    assert (Hz : (Z.of_nat j - Z.of_nat i) mod Z.of_nat (length attach_files) = 0).
    { replace (Z.of_nat j - Z.of_nat i)
        with ((cursor selector KEY_ATTACH + Z.of_nat j)
              - (cursor selector KEY_ATTACH + Z.of_nat i)) by lia.
      rewrite Zminus_mod, Heq, Z.sub_diag. apply Zmod_0_l. }
    rewrite Z.mod_small in Hz by lia. lia. }
  unfold choose_attachments.
  assert (Hn : nonempty attach_files = true) by (destruct attach_files; [congruence|reflexivity]).
  rewrite Hn. unfold bind at 1, random_random. destruct (rg_random g) as [x g1].
  destruct (PrimFloat.ltb x attach_probability).
  - destruct (weighted_choice_capped (max_attachments config) g1 Hcap)
      as (count & g2 & Hw & Rc & Rcap).
    unfold bind at 1. rewrite Hw. rewrite Hlin.
    change (str_eqb (lit "linear") (lit "linear")) with true. cbv iota.
    destruct (choose_times_linear attach_files KEY_ATTACH Hne (Z.to_nat count)
                selector g2 Hmode)
      as (xs & sel' & Hrun & Hl & Hlook & _).
    exists xs, sel', g2. split; [exact Hrun|]. rewrite Hl.
    split; [lia|]. split; [lia|]. split; [exact Hlook|].
    apply Hdistinct.
  - exists [], selector, g1. split; [reflexivity|]. simpl.
    split; [lia|]. split; [lia|]. split; [intros; lia|]. intros; lia.
Qed.

(** *** The run *)


Section Writer.

Variable config : Config.
Variables to_addrs from_addrs relay_hosts text_files html_files attach_files
  : list pystr.
Variables html_probability attach_probability : float.

Hypothesis to_nonempty : to_addrs <> [].
Hypothesis from_nonempty : from_addrs <> [].
Hypothesis body_available : nonempty text_files || nonempty html_files = true.
Hypothesis cap_positive : 1 <= max_attachments config.
Hypothesis dates_valid : valid_dates config = true.



End Writer.



(** X17: when a required pool is empty (no recipient, no sender, or neither
    a text nor an HTML body), [run_generation] exits with status 1 before the
    first iteration: nothing is written and the clock is not read. *)
Theorem run_generation_empty_pools :
  forall (config : Config) (w : World),
    valid_pools host config = false ->
    exists w' : World,
      run_generation host proc config w = (Raise (SystemExit 1), w') /\
      w_written w' = w_written w /\
      w_tick w' = w_tick w.
Proof.
  intros config w Hpools. unfold valid_pools in Hpools. unfold run_generation.
  set (w0 := match seed config with
             | Some s => {| w_rng := rg_seed s; w_tick := w_tick w;
                            w_written := w_written w |}
             | None => w
             end).
  assert (Hseed : forall k : unit -> @Run G unit,
            bind_ match seed config with
                  | Some s => random_seed s
                  | None => ret_ tt
                  end k w = k tt w0).
  { intros k. unfold w0. destruct (seed config); reflexivity. }
  rewrite Hseed.
  assert (Hw0 : w_written w0 = w_written w /\ w_tick w0 = w_tick w)
    by (unfold w0; destruct (seed config); auto).
  exists w0. split; [|exact Hw0].
  destruct (nonempty (read_list_file host (to_list config))); [|reflexivity].
  destruct (nonempty (read_list_file host (from_list config))); [|reflexivity].
  destruct (nonempty (list_text_files host (body_dir config))),
           (nonempty (list_html_files host (html_dir config)));
    simpl in Hpools; try discriminate; reflexivity.
Qed.


(** X19: with a seed in the configuration the run does not depend on the
    state the generator was in before: from two worlds that differ only in
    their generator the run gives the same outcome and the same final
    world. *)
Theorem seed_resets_generator :
  forall (config : Config) (s : Z) (w1 w2 : World),
    seed config = Some s ->
    w_tick w1 = w_tick w2 ->
    w_written w1 = w_written w2 ->
    run_generation host proc config w1 = run_generation host proc config w2.
Proof.
  intros config s w1 w2 Hseed Htick Hout.
  unfold run_generation. rewrite Hseed.
  assert (Hk : forall (k : unit -> @Run G unit) (w : World),
            bind_ (random_seed s) k w =
            k tt {| w_rng := rg_seed s; w_tick := w_tick w;
                    w_written := w_written w |}) by reflexivity.
  rewrite !Hk, Htick, Hout. reflexivity.
Qed.

End EngineFacts.

(** ** Properties of the command line *)

Section CommandLineFacts.

Variable digit_value : N -> option Z.
Variable strptime_ymd : pystr -> option Z.
Variable isfile : pystr -> bool.
Variable isdir : pystr -> bool.

(** A digit has a value from 0 to 9, and the ASCII digits have theirs. *)
Hypothesis digit_value_range :
  forall c v, digit_value c = Some v -> 0 <= v <= 9.
Hypothesis digit_value_ascii :
  forall c, (48 <= c <= 57)%N -> digit_value c = Some (Z.of_N c - 48).

Lemma of_local_micros_fields (ord h m sec us : Z) (tz : option Z) :
  0 <= h < 24 -> 0 <= m < 60 -> 0 <= sec < 60 -> 0 <= us < 1000000 ->
  of_local_micros ((ord * 86400 + h * 3600 + m * 60 + sec) * 1000000 + us) tz =
  {| dt_ordinal := ord; dt_hour := h; dt_minute := m; dt_second := sec;
     dt_microsecond := us; dt_tzinfo := tz |}.
Proof.
  intros Hh Hm Hs Hus. unfold of_local_micros.
  set (secs := ord * 86400 + h * 3600 + m * 60 + sec).
  assert (E1 : (secs * 1000000 + us) / 1000000 = secs)
    by (symmetry; apply (Z.div_unique _ _ _ us); lia).
  assert (E2 : (secs * 1000000 + us) mod 1000000 = us)
    by (symmetry; apply (Z.mod_unique _ _ secs); lia).
  rewrite E1, E2. cbv zeta.
  assert (E3 : secs / 86400 = ord)
    by (symmetry; apply (Z.div_unique _ _ _ (h * 3600 + m * 60 + sec)); lia).
  assert (E4 : secs mod 86400 = h * 3600 + m * 60 + sec)
    by (symmetry; apply (Z.mod_unique _ _ ord); lia).
  rewrite E3, E4.
  assert (E5 : (h * 3600 + m * 60 + sec) / 3600 = h)
    by (symmetry; apply (Z.div_unique _ _ _ (m * 60 + sec)); lia).
  assert (E6 : (h * 3600 + m * 60 + sec) mod 3600 = m * 60 + sec)
    by (symmetry; apply (Z.mod_unique _ _ h); lia).
  assert (E7 : (m * 60 + sec) / 60 = m)
    by (symmetry; apply (Z.div_unique _ _ _ sec); lia).
  assert (E8 : (h * 3600 + m * 60 + sec) mod 60 = sec)
    by (symmetry; apply (Z.mod_unique _ _ (h * 60 + m)); lia).
  rewrite E5, E6, E7, E8. reflexivity.
Qed.

(** The end of a range is the last second of its last day. *)
Lemma end_of_range_midnight (ord : Z) :
  end_of_range {| dt_ordinal := ord; dt_hour := 0; dt_minute := 0; dt_second := 0;
                  dt_microsecond := 0; dt_tzinfo := utc |} =
  {| dt_ordinal := ord; dt_hour := 23; dt_minute := 59; dt_second := 59;
     dt_microsecond := 0; dt_tzinfo := utc |}.
Proof.
  assert (Hday : dt_add_days
                   {| dt_ordinal := ord; dt_hour := 0; dt_minute := 0; dt_second := 0;
                      dt_microsecond := 0; dt_tzinfo := utc |} 1 =
                 {| dt_ordinal := ord + 1; dt_hour := 0; dt_minute := 0;
                    dt_second := 0; dt_microsecond := 0; dt_tzinfo := utc |}).
  { unfold dt_add_days, dt_add_micros, local_micros, local_seconds.
    cbn [dt_ordinal dt_hour dt_minute dt_second dt_microsecond dt_tzinfo].
    replace ((ord * 86400 + 0 * 3600 + 0 * 60 + 0) * 1000000 + 0 + 1 * 86400 * 1000000)
      with (((ord + 1) * 86400 + 0 * 3600 + 0 * 60 + 0) * 1000000 + 0) by lia.
    apply of_local_micros_fields; lia. }
  unfold end_of_range. rewrite Hday.
  unfold dt_add_seconds, dt_add_micros, local_micros, local_seconds.
  cbn [dt_ordinal dt_hour dt_minute dt_second dt_microsecond dt_tzinfo].
  replace (((ord + 1) * 86400 + 0 * 3600 + 0 * 60 + 0) * 1000000 + 0 + -1 * 1000000)
    with ((ord * 86400 + 23 * 3600 + 59 * 60 + 59) * 1000000 + 0) by lia.
  apply of_local_micros_fields; lia.
Qed.

(** *** Business hours *)

Lemma format_02d_digits (x : Z) :
  0 <= x < 100 ->
  format_02d x = [Z.to_N (48 + x / 10); Z.to_N (48 + x mod 10)].
Proof.
  intros Hx.
  assert (Hall : forallb (fun k => str_eqb (format_02d k)
                                      [Z.to_N (48 + k / 10); Z.to_N (48 + k mod 10)])
                         (py_range 0 100) = true) by (vm_compute; reflexivity).
  rewrite forallb_forall in Hall.
  assert (Hin : In x (py_range 0 100)).
  { unfold py_range. apply in_map_iff. exists (Z.to_nat x). split; [lia|].
    apply in_seq. lia. }
  specialize (Hall x Hin). unfold str_eqb in Hall.
  apply bool_decide_eq_true in Hall. exact Hall.
Qed.

Lemma two_digits_ascii (x : Z) :
  0 <= x < 100 ->
  two_digits digit_value (Z.to_N (48 + x / 10)) (Z.to_N (48 + x mod 10)) = Some x.
Proof.
  intros Hx. unfold two_digits.
  assert (0 <= x / 10 <= 9)
    by (split; [apply Z.div_pos; lia|apply Z.lt_succ_r, Z.div_lt_upper_bound; lia]).
  pose proof (Z.mod_pos_bound x 10 ltac:(lia)).
  rewrite !digit_value_ascii by lia.
  rewrite !Z2N.id by lia. f_equal.
  pose proof (Z_div_mod_eq_full x 10). lia.
Qed.

(** X20: the text [mins_to_hhmm(a) + "-" + mins_to_hhmm(b)] of a window
    with [0 <= a <= 1439] and [0 <= b <= 1440] is read back by
    [parse_business_hours] as [(a, b)]; the end of the day, 1440, is written
    [24:00]. *)
Theorem business_hours_round_trip :
  forall a b : Z,
    0 <= a <= 1439 ->
    0 <= b <= 1440 ->
    parse_business_hours digit_value
      (mins_to_hhmm (Some a) ++ lit "-" ++ mins_to_hhmm (Some b)) = Ok (a, b).
Proof.
  intros a b Ha Hb. unfold mins_to_hhmm.
  assert (Hah : 0 <= a / 60 <= 23)
    by (split; [apply Z.div_pos; lia|apply Z.lt_succ_r, Z.div_lt_upper_bound; lia]).
  assert (Hbh : 0 <= b / 60 <= 24)
    by (split; [apply Z.div_pos; lia|apply Z.lt_succ_r, Z.div_lt_upper_bound; lia]).
  pose proof (Z.mod_pos_bound a 60 ltac:(lia)) as Ham.
  pose proof (Z.mod_pos_bound b 60 ltac:(lia)) as Hbm.
  rewrite !format_02d_digits by lia.
  change (lit ":") with [COLON]. change (lit "-") with [DASH].
  cbn [app].
  unfold parse_business_hours.
  rewrite strip_id.
  - change ((COLON =? COLON)%N && (DASH =? DASH)%N && (COLON =? COLON)%N) with true.
    cbv iota. rewrite !two_digits_ascii by lia.
    destruct (Z.leb_spec 0 (a / 60)); [|lia]. destruct (Z.leb_spec (a / 60) 23); [|lia].
    destruct (Z.leb_spec 0 (a mod 60)); [|lia]. destruct (Z.leb_spec (a mod 60) 59); [|lia].
    destruct (Z.leb_spec 0 (b / 60)); [|lia]. destruct (Z.leb_spec (b / 60) 24); [|lia].
    pose proof (Z_div_mod_eq_full a 60). pose proof (Z_div_mod_eq_full b 60).
    destruct (Z.ltb_spec (b / 60) 24).
    + destruct (Z.leb_spec 0 (b mod 60)); [|lia].
      destruct (Z.leb_spec (b mod 60) 59); [|lia].
      simpl. f_equal. f_equal; lia.
    + destruct (Z.eqb_spec (b mod 60) 0); [|lia].
      simpl. f_equal. f_equal; lia.
  - intros c Hc. simpl in Hc. inversion Hc; subst c.
    assert (0 <= a / 60 / 10 <= 2)
      by (split; [apply Z.div_pos; lia|apply Z.lt_succ_r, Z.div_lt_upper_bound; lia]).
    unfold is_space.
    repeat match goal with
           | |- context [(?x <=? ?y)%N] => destruct (N.leb_spec x y); try lia
           | |- context [(?x =? ?y)%N] => destruct (N.eqb_spec x y); try lia
           end; reflexivity.
  - intros c Hc. cbn in Hc. inversion Hc; subst c.
    pose proof (Z.mod_pos_bound (b mod 60) 10 ltac:(lia)).
    unfold is_space.
    repeat match goal with
           | |- context [(?x <=? ?y)%N] => destruct (N.leb_spec x y); try lia
           | |- context [(?x =? ?y)%N] => destruct (N.eqb_spec x y); try lia
           end; reflexivity.
Qed.

Lemma parse_business_hours_range (spec : pystr) (start_min end_min : Z) :
  parse_business_hours digit_value spec = Ok (start_min, end_min) ->
  length (strip spec) = 11%nat /\
  0 <= start_min <= 1439 /\ 0 <= end_min <= 1440.
Proof.
  intros Hp. unfold parse_business_hours in Hp.
  destruct (strip spec) as [|s1 [|s2 [|c1 [|s3 [|s4 [|d [|e1 [|e2 [|c2 [|e3 [|e4 [|x r]]]]]]]]]]]];
    try discriminate.
  split; [reflexivity|].
  destruct ((c1 =? COLON)%N && (d =? DASH)%N && (c2 =? COLON)%N); [|discriminate].
  destruct (two_digits digit_value s1 s2) as [sh|]; [|discriminate].
  destruct (two_digits digit_value s3 s4) as [sm|]; [|discriminate].
  destruct (two_digits digit_value e1 e2) as [eh|]; [|discriminate].
  destruct (two_digits digit_value e3 e4) as [em|]; [|discriminate].
  destruct ((0 <=? sh) && (sh <=? 23) && ((0 <=? sm) && (sm <=? 59))) eqn:Hs;
    [|discriminate].
  destruct (((0 <=? eh) && (eh <=? 24))
            && (if eh <? 24 then (0 <=? em) && (em <=? 59) else em =? 0)) eqn:He;
    [|discriminate].
  simpl in Hp. inversion Hp; subst.
  apply andb_prop in Hs as [Hs1 Hs2]. apply andb_prop in Hs1 as [? ?].
  apply andb_prop in Hs2 as [? ?].
  apply andb_prop in He as [He1 He2]. apply andb_prop in He1 as [? ?].
  destruct (Z.ltb_spec eh 24).
  - apply andb_prop in He2 as [? ?]. lia.
  - lia.
Qed.

(** X21: what [parse_business_hours] accepts is, once stripped, eleven
    characters long, and the window it returns has its start in 0..1439 and
    its end in 0..1440; nothing orders the two (an inverted window such as
    [17:00-09:00] is accepted here and refused by [validate_args]). *)
Theorem parse_business_hours_bounds :
  forall (spec : pystr) (start_min end_min : Z),
    parse_business_hours digit_value spec = Ok (start_min, end_min) ->
    length (strip spec) = 11%nat /\
    0 <= start_min <= 1439 /\ 0 <= end_min <= 1440.
Proof.
  intros spec start_min end_min Hp.
  apply parse_business_hours_range. exact Hp.
Qed.

(** *** Date range *)

Lemma validate_date_range_inv (args : Args) :
  validate_date_range_args strptime_ymd args = Ok tt ->
  (given (a_date_start args) = false /\ given (a_date_end args) = false) \/
  (given (a_date_start args) = true /\ given (a_date_end args) = true /\
   exists s e,
     strptime_ymd (default [] (a_date_start args)) = Some s /\
     strptime_ymd (default [] (a_date_end args)) = Some e /\
     s <= e).
Proof.
  unfold validate_date_range_args, parse_date_utc. intros Hv.
  destruct (given (a_date_start args)), (given (a_date_end args));
    cbn [orb andb negb] in Hv; try discriminate; [right|left; auto].
  split; [reflexivity|]. split; [reflexivity|].
  destruct (strptime_ymd (default [] (a_date_start args))) as [s0|]; [|discriminate].
  destruct (strptime_ymd (default [] (a_date_end args))) as [e0|]; [|discriminate].
  rewrite end_of_range_midnight in Hv. exists s0, e0. repeat split.
  unfold dt_ltb, utc_micros, local_seconds, utc in Hv.
  cbn [dt_ordinal dt_hour dt_minute dt_second dt_microsecond dt_tzinfo default] in Hv.
  match type of Hv with (if ?a <? ?b then _ else _) = _ =>
    destruct (Z.ltb_spec a b); [discriminate|] end.
  lia.
Qed.


(** *** From the command line to the run *)

Lemma profile_defaults_valid (name : pystr) (p : Profile) :
  PROFILE_DEFAULTS name = Some p ->
  0 <= p_html_pct p <= 100 /\ 0 <= p_attach_pct p <= 100 /\
  1 <= p_subject_len p /\ 1 <= p_num_emails p.
Proof.
  unfold PROFILE_DEFAULTS. intros Hp.
  repeat match type of Hp with
         | (if ?c then _ else _) = _ => destruct c
         end; inversion Hp; subst; simpl; lia.
Qed.

Lemma merged_in_range (a : option Z) (prof : option Z) (lo hi v : Z) :
  out_of_range a lo hi = false ->
  (forall x, prof = Some x -> lo <= x <= hi) ->
  merged a prof = Some v -> lo <= v <= hi.
Proof.
  unfold out_of_range, merged. intros Ha Hp Hm.
  destruct a as [x|].
  - inversion Hm; subst. apply negb_false_iff, andb_prop in Ha as [? ?]. lia.
  - apply Hp. exact Hm.
Qed.

Lemma merged_at_least (a : option Z) (prof : option Z) (lo v : Z) :
  below a lo = false ->
  (forall x, prof = Some x -> lo <= x) ->
  merged a prof = Some v -> lo <= v.
Proof.
  unfold below, merged. intros Ha Hp Hm.
  destruct a as [x|].
  - inversion Hm; subst. apply Z.ltb_ge in Ha. exact Ha.
  - apply Hp. exact Hm.
Qed.

(** X23: arguments that pass [validate_args], loaded by [load_config] into a
    dictionary that holds every key [run_generation] reads, give a
    configuration that satisfies [valid_config]; when a date range is
    given, [date_start] is the midnight of the start date and [date_end] the
    23:59:59 of the end date, both UTC, the start date not after the end
    date. *)
Theorem validated_config_is_valid :
  forall (args : Args) (cd : ConfigDict) (config : Config),
    validate_args digit_value strptime_ymd isfile isdir args = Ok tt ->
    load_config digit_value strptime_ymd args = Loaded cd ->
    config_of_dict cd = Some config ->
    valid_config config = true /\
    (forall ds de,
       date_start config = Some ds -> date_end config = Some de ->
       dt_hour ds = 0 /\ dt_minute ds = 0 /\ dt_second ds = 0 /\
       dt_microsecond ds = 0 /\ dt_tzinfo ds = utc /\
       dt_hour de = 23 /\ dt_minute de = 59 /\ dt_second de = 59 /\
       dt_microsecond de = 0 /\ dt_tzinfo de = utc /\
       dt_ordinal ds <= dt_ordinal de).
Proof.
  intros args cd config Hval Hload Hcfg.
  unfold validate_args in Hval.
  repeat match type of Hval with
         | (if ?c then Raise _ else _) = _ =>
           let E := fresh "E" in destruct c eqn:E; [discriminate|]
         end.
  destruct (validate_date_range_args strptime_ymd args) as [[]|e] eqn:Hdr;
    [|discriminate].
  apply validate_date_range_inv in Hdr.
  unfold load_config in Hload.
  assert (Hprof : exists profile : option Profile,
    (forall p, profile = Some p ->
       0 <= p_html_pct p <= 100 /\ 0 <= p_attach_pct p <= 100 /\
       1 <= p_subject_len p /\ 1 <= p_num_emails p) /\
    (if given (a_profile args) then
       match PROFILE_DEFAULTS (default [] (a_profile args)) with
       | Some p => inl (Some p)
       | None => inr (default [] (a_profile args))
       end
     else inl None) = inl profile).
  { destruct (given (a_profile args)).
    - destruct (PROFILE_DEFAULTS (default [] (a_profile args))) as [p|] eqn:Hp;
        [|discriminate].
      exists (Some p). split; [|reflexivity].
      intros p' Hp'. inversion Hp'; subst. eapply profile_defaults_valid; eauto.
    - exists None. split; [discriminate|reflexivity]. }
  destruct Hprof as (profile & Hpv & Hpl). rewrite Hpl in Hload. cbv zeta in Hload.
  assert (Hdates : exists dk : option DateKeys,
    (if given (a_date_start args) && given (a_date_end args) then
       match parse_date_utc strptime_ymd (default [] (a_date_start args)) with
       | Raise _ => inr tt
       | Ok date_start =>
         match parse_date_utc strptime_ymd (default [] (a_date_end args)) with
         | Raise _ => inr tt
         | Ok end0 =>
           match parse_business_hours digit_value (a_business_hours args) with
           | Raise _ => inr tt
           | Ok (bh_start_min, bh_end_min) =>
             inl (Some {| k_date_start := date_start;
                          k_date_end := end_of_range end0;
                          k_business_start_min := bh_start_min;
                          k_business_end_min := bh_end_min;
                          k_business_bias := a_business_bias args |})
           end
         end
       end
     else inl None) = inl dk /\
    (forall k, dk = Some k ->
       exists s e,
         k_date_start k = {| dt_ordinal := s; dt_hour := 0; dt_minute := 0;
                             dt_second := 0; dt_microsecond := 0; dt_tzinfo := utc |} /\
         k_date_end k = {| dt_ordinal := e; dt_hour := 23; dt_minute := 59;
                           dt_second := 59; dt_microsecond := 0; dt_tzinfo := utc |} /\
         s <= e /\
         0 <= k_business_start_min k /\
         k_business_start_min k < k_business_end_min k /\
         k_business_end_min k <= 24 * 60 /\
         0 <= k_business_bias k <= 100)).
  { destruct Hdr as [[Hs He]|(Hs & He & s0 & e0 & Hps & Hpe & Hle)];
      rewrite Hs, He in *; cbn [andb] in *.
    - exists None. split; [reflexivity|discriminate].
    - unfold parse_date_utc. rewrite Hps, Hpe.
      destruct (parse_business_hours digit_value (a_business_hours args))
        as [[bs be]|e1] eqn:Hbh; [|discriminate].
      destruct (negb ((0 <=? a_business_bias args) && (a_business_bias args <=? 100)))
        eqn:Hbias; [discriminate|].
      destruct (be <=? bs) eqn:Hord; [discriminate|].
      apply negb_false_iff, andb_prop in Hbias as [? ?]. apply Z.leb_gt in Hord.
      destruct (parse_business_hours_range _ _ _ Hbh) as (_ & Rs & Re).
      eexists. split; [reflexivity|].
      intros k Hk. inversion Hk; subst k. cbn [k_date_start k_date_end
        k_business_start_min k_business_end_min k_business_bias].
      rewrite end_of_range_midnight. exists s0, e0. repeat split; lia. }
  destruct Hdates as (dk & Hdl & Hdk). rewrite Hdl in Hload.
  cbn [cd_output_dir] in Hload.
  destruct (merged (a_output_dir args) (p_output_dir <$> profile)) as [od|] eqn:Hod;
    [|discriminate].
  inversion Hload; subst cd. clear Hload.
  unfold config_of_dict in Hcfg.
  cbn [cd_html_pct cd_attach_pct cd_subject_len cd_num_emails cd_output_dir
       cd_max_attachments cd_seed cd_to_list cd_from_list cd_relay_hosts
       cd_body_dir cd_html_dir cd_attach_dir cd_selection_mode cd_dates] in Hcfg.
  try rewrite Hod in Hcfg.
  destruct (merged (a_html_pct args) (p_html_pct <$> profile)) as [hp|] eqn:Hhp;
    [|discriminate].
  destruct (merged (a_attach_pct args) (p_attach_pct <$> profile)) as [ap|] eqn:Hap;
    [|discriminate].
  destruct (merged (a_subject_len args) (p_subject_len <$> profile)) as [sl|] eqn:Hsl;
    [|discriminate].
  destruct (merged (a_num_emails args) (p_num_emails <$> profile)) as [ne|] eqn:Hne;
    [|discriminate].
  destruct (a_max_attachments args) as [ma|] eqn:Hma; [|discriminate].
  inversion Hcfg; subst config. clear Hcfg.
  assert (Rhp : 0 <= hp <= 100).
  { eapply (merged_in_range (a_html_pct args)); [eassumption| |exact Hhp].
    intros x Hx. destruct profile as [p|]; [|discriminate].
    inversion Hx; subst. apply (Hpv p eq_refl). }
  assert (Rap : 0 <= ap <= 100).
  { eapply (merged_in_range (a_attach_pct args)); [eassumption| |exact Hap].
    intros x Hx. destruct profile as [p|]; [|discriminate].
    inversion Hx; subst. apply (Hpv p eq_refl). }
  assert (Rsl : 1 <= sl).
  { eapply (merged_at_least (a_subject_len args)); [eassumption| |exact Hsl].
    intros x Hx. destruct profile as [p|]; [|discriminate].
    inversion Hx; subst. apply (Hpv p eq_refl). }
  assert (Rne : 1 <= ne).
  { eapply (merged_at_least (a_num_emails args)); [eassumption| |exact Hne].
    intros x Hx. destruct profile as [p|]; [|discriminate].
    inversion Hx; subst. apply (Hpv p eq_refl). }
  assert (Rma : 1 <= ma).
  { match goal with Hb : below (Some ma) 1 = false |- _ =>
      unfold below in Hb; apply Z.ltb_ge in Hb; exact Hb end. }
  split.
  - unfold valid_config, valid_dates.
    cbn [html_pct attach_pct subject_len num_emails max_attachments date_start
         date_end business_start_min business_end_min business_bias].
    assert (Hnum : (0 <=? hp) && (hp <=? 100) && (0 <=? ap) && (ap <=? 100)
                   && (1 <=? sl) && (0 <? ne) && (1 <=? ma) = true).
    { repeat (apply andb_true_intro; split);
        first [apply Z.leb_le; lia | apply Z.ltb_lt; lia]. }
    rewrite Hnum. cbn [andb].
    destruct dk as [k|]; [|reflexivity].
    destruct (Hdk k eq_refl) as (s0 & e0 & Hks & Hke & Hle & Hb0 & Hb1 & Hb2 & Hb3).
    cbn [fmap option_fmap option_map]. rewrite Hks, Hke.
    cbn [is_aware dt_tzinfo dt_ordinal utc andb].
    repeat (apply andb_true_intro; split);
      first [apply Z.leb_le; lia | apply Z.ltb_lt; lia | reflexivity].
  - cbn [date_start date_end]. intros ds de Hds Hde.
    destruct dk as [k|]; [|discriminate].
    destruct (Hdk k eq_refl) as (s0 & e0 & Hks & Hke & Hle & _).
    cbn [fmap option_fmap option_map] in Hds, Hde.
    inversion Hds; inversion Hde; subst ds de. rewrite Hks, Hke.
    cbn [dt_hour dt_minute dt_second dt_microsecond dt_tzinfo dt_ordinal].
    repeat split; try reflexivity. exact Hle.
Qed.


End CommandLineFacts.

(** ** The further properties on concrete inputs *)

Lemma ascii_digit_value_ascii (c : N) :
  (48 <= c <= 57)%N -> ascii_digit_value c = Some (Z.of_N c - 48).
Proof.
  intros Hc. unfold ascii_digit_value.
  destruct (N.leb_spec 48 c); [|lia]. destruct (N.leb_spec c 57); [|lia].
  reflexivity.
Qed.

Lemma weighted_choice_within_cap_witness :
  exists (c : Z) (g' : Z),
    weighted_choice ATTACH_COUNT_DIST 2 (5 : Z) = (Ok c, g') /\ (c = 1 \/ c = 2).
Proof.
  destruct (weighted_choice_within_cap 2 (5 : Z)) as (c & g' & Hrun & _ & _ & _ & H2).
  - lia.
  - exists c, g'. split; [exact Hrun|]. apply H2. reflexivity.
Defined.

Lemma choose_random_mode_witness :
  exists x : Z,
    choose (Selector_init (lit "random")) 1 [10; 20; 30] (5 : Z) =
      (Ok (x, Selector_init (lit "random")), snd (rg_randbelow 3 (5 : Z))).
Proof.
  destruct (choose_random_mode Z (Selector_init (lit "random")) 1 [10; 20; 30] (5 : Z))
    as (x & _ & Hrun).
  - reflexivity.
  - discriminate.
  - exists x. exact Hrun.
Defined.

Lemma linear_choose_from_cursor_witness :
  exists (xs : list pystr) (self' : Selector),
    choose_times DemoCli.linear_selector KEY_ATTACH Demo.relays 3 (0 : Z)
      = (Ok (xs, self'), 0) /\
    length xs = 3%nat /\ cursor self' KEY_ATTACH = 0.
Proof.
  destruct (linear_choose_from_cursor pystr DemoCli.linear_selector KEY_ATTACH
              Demo.relays 3 (0 : Z))
    as (xs & self' & Hrun & Hl & _ & Hidx & _).
  - vm_compute. reflexivity.
  - discriminate.
  - lia.
  - exists xs, self'. split; [exact Hrun|]. split; [exact Hl|].
    unfold cursor. rewrite Hidx. reflexivity.
Defined.

Lemma weighted_sample_within_range_witness :
  exists (r : datetime) (g' : Z),
    random_date_weighted (Demo.at_hour 738886 20) (Demo.at_hour 738886 21)
      480 1080 70 (0 : Z) = (Ok r, g') /\
    dt_leb (Demo.at_hour 738886 20) r = true /\
    dt_leb r (Demo.at_hour 738886 21) = true.
Proof.
  apply (weighted_sample_within_range (Demo.at_hour 738886 20)
           (Demo.at_hour 738886 21) 480 1080 70 (0 : Z));
    try reflexivity; simpl; lia.
Defined.

Lemma weighted_sample_no_bias_outside_window_witness :
  exists (day m sec : Z) (g' : Z),
    let cand := {| dt_ordinal := day; dt_hour := m / 60; dt_minute := m mod 60;
                   dt_second := sec; dt_microsecond := 0; dt_tzinfo := utc |} in
    random_date_weighted (Demo.midnight 738886) (Demo.end_of_day 738890)
      540 1020 0 (0 : Z)
    = (Ok (if dt_ltb cand (Demo.midnight 738886) then Demo.midnight 738886
           else if dt_ltb (Demo.end_of_day 738890) cand then Demo.end_of_day 738890
           else cand), g') /\
    ~ (540 <= minute_of_day cand < 1020).
Proof.
  destruct (weighted_sample_no_bias_outside_window (Demo.midnight 738886)
              (Demo.end_of_day 738890) 540 1020 0 (0 : Z))
    as (day & m & sec & g' & Hrun & _ & _ & Hout);
    try reflexivity; try (simpl; lia).
  exists day, m, sec, g'. split; [exact Hrun|exact Hout].
Defined.

Lemma weighted_sample_raises_iff_witness :
  exists msg,
    random_date_weighted (Demo.midnight 738890) (Demo.end_of_day 738886)
      540 1020 70 (0 : Z) = (Raise (ValueError msg), 0).
Proof.
  destruct (weighted_sample_raises_iff (Demo.midnight 738890)
              (Demo.end_of_day 738886) 540 1020 70 (0 : Z)) as [_ Hraise];
    try lia.
  apply Hraise. reflexivity.
Defined.

Lemma parse_domain_after_first_at_witness :
  exists local : pystr,
    lit "a@b@c" = local ++ AT :: parse_domain_from_email (lit "a@b@c") /\
    AT ∉ local.
Proof.
  apply (parse_domain_after_first_at (lit "a@b@c")).
  apply (bool_decide_unpack (AT ∈ lit "a@b@c")). vm_compute. exact I.
Defined.

Lemma choose_bodies_cases_witness :
  exists (text : pystr) (selector' : Selector) (g' : Z),
    choose_bodies Demo.host (Selector_init (lit "linear")) false
      [lit "bodies/hello.txt"] [] (0 : Z) =
      (Ok (false, text, None, selector'), g').
Proof.
  destruct (choose_bodies_cases Demo.host (Selector_init (lit "linear")) false
              [lit "bodies/hello.txt"] [] (0 : Z))
    as (ch & text & html & sel' & g' & Hrun & _ & _ & _ & Hnohtml & _).
  - discriminate.
  - left. discriminate.
  - destruct (Hnohtml eq_refl) as [-> ->]. exists text, sel', g'. exact Hrun.
Defined.

Lemma linear_attachments_consecutive_witness :
  exists (attach_list : list pystr) (selector' : Selector) (g' : Z),
    choose_attachments Demo.config DemoCli.linear_selector Demo.relays
      1%float (0 : Z) = (Ok (attach_list, selector'), g') /\
    Z.of_nat (length attach_list) <= 4.
Proof.
  destruct (linear_attachments_consecutive Demo.config DemoCli.linear_selector
              Demo.relays 1%float (0 : Z))
    as (l & sel' & g' & Hrun & Hlen & _).
  - reflexivity.
  - vm_compute. reflexivity.
  - discriminate.
  - simpl. lia.
  - exists l, sel', g'. split; assumption.
Defined.

Lemma run_generation_empty_pools_witness :
  exists w' : World,
    run_generation DemoCli.host_no_lists Demo.proc_a Demo.config Demo.world0
      = (Raise (SystemExit 1), w') /\
    w_written w' = [].
Proof.
  destruct (run_generation_empty_pools DemoCli.host_no_lists Demo.proc_a
              Demo.config Demo.world0) as (w' & Hrun & Hw & _).
  - vm_compute. reflexivity.
  - exists w'. split; [exact Hrun|exact Hw].
Defined.


Lemma seed_resets_generator_witness :
  run_generation Demo.host Demo.proc_a Demo.config Demo.world0 =
  run_generation Demo.host Demo.proc_a Demo.config
    {| w_rng := 99; w_tick := 0; w_written := [] |}.
Proof.
  apply (seed_resets_generator Demo.host Demo.proc_a Demo.config 7); reflexivity.
Defined.

Lemma business_hours_round_trip_witness :
  parse_business_hours ascii_digit_value
    (mins_to_hhmm (Some 540) ++ lit "-" ++ mins_to_hhmm (Some 1440)) = Ok (540, 1440).
Proof.
  apply (business_hours_round_trip ascii_digit_value ascii_digit_value_ascii); lia.
Defined.

Lemma parse_business_hours_bounds_witness :
  length (strip (lit " 09:00-17:30 ")) = 11%nat /\
  0 <= 540 <= 1439 /\ 0 <= 1050 <= 1440.
Proof.
  apply (parse_business_hours_bounds ascii_digit_value
           (lit " 09:00-17:30 ") 540 1050).
  vm_compute. reflexivity.
Defined.

Lemma validated_config_is_valid_witness :
  exists (cd : ConfigDict) (config : Config),
    load_config ascii_digit_value DemoCli.strptime_ymd DemoCli.args = Loaded cd /\
    config_of_dict cd = Some config /\
    valid_config config = true.
Proof.
  destruct (load_config ascii_digit_value DemoCli.strptime_ymd DemoCli.args)
    as [cd| |] eqn:Hload; try (vm_compute in Hload; discriminate Hload).
  destruct (config_of_dict cd) as [config|] eqn:Hcfg.
  - exists cd, config. split; [reflexivity|]. split; [exact Hcfg|].
    apply (validated_config_is_valid ascii_digit_value DemoCli.strptime_ymd
             (fun _ => true) (fun _ => true) DemoCli.args cd config).
    + vm_compute. reflexivity.
    + exact Hload.
    + exact Hcfg.
  - vm_compute in Hload. inversion Hload; subst cd. vm_compute in Hcfg. discriminate Hcfg.
Defined.
